(** * RouterWS: a shallow embedding of the WebSocket/HTTP relay

    The development follows [src/server.js] and [src/utils/timeUtils.js].

        - The time value of a valid [Date] is an integer, milliseconds since
      the epoch, of size at most 8.64e15; a difference of two of them is a
      double, the nearest one to the exact difference.  An Invalid Date is
      a case of its own where a caller can pass one.
    - The registry [clients] is a JavaScript [Set] of socket objects; it is
      kept as the list of its members in insertion order, which is the order
      [Set.prototype.forEach] visits them in.
    - Socket objects belong to the [ws] library.  The code reads their
      [readyState] and calls their [send]; both are kept in a store of sockets
      indexed by object identity, and every call of [send] is recorded in a
      trace of effects.
    - Handlers run to completion one at a time (the Node event loop), so a
      handler is a function from the process state to a result and a new
      process state; a JavaScript exception is the left injection of the
      result and leaves the state as it was when it was raised.
    - [console.log] / [console.error] calls are not part of the model. *)

From Stdlib Require Import ZArith List String Ascii Bool Lia DecimalString.
Import ListNotations.

Open Scope Z_scope.
Open Scope string_scope.

(** ** The fragment of JavaScript the sources rely on *)

Module JS.

(** Values a decoded request body can take: JSON data, or [undefined]
    when no body was decoded.  Only the zero test of a number matters
    here, so numbers are kept as integers. *)
#[local] Unset Elimination Schemes.
Inductive value : Type :=
| Undefined
| Null
| Bool (b : bool)
| Number (n : Z)
| Str (s : string)
| Arr (items : list value)
| Obj (fields : list (string * value)).
#[local] Set Elimination Schemes.

(** Property access [v.name]; [undefined] when there is no such field. *)
Fixpoint lookup (name : string) (fields : list (string * value)) : value :=
  match fields with
  | [] => Undefined
  | (k, x) :: rest => if String.eqb k name then x else lookup name rest
  end.

Definition get (name : string) (v : value) : value :=
  match v with
  | Obj fields => lookup name fields
  | _ => Undefined
  end.

(** [ToBoolean]: what [if (v)] and [!v] test. *)
Definition truthy (v : value) : bool :=
  match v with
  | Undefined | Null => false
  | Bool b => b
  | Number n => negb (Z.eqb n 0)
  | Str s => negb (Nat.eqb (String.length s) 0)
  | Arr _ | Obj _ => true
  end.

(** Exceptions that can reach the code. *)
Inductive exn : Type :=
| RangeError (msg : string)
| SyntaxError
| SendError (socket : nat).

(** [Number.prototype.toString] on an integer. *)
Definition numToString (z : Z) : string :=
  NilZero.string_of_int (Z.to_int z).

(** The first [k] characters of [pad] repeated for ever, reading on
    from [cur]; nothing when [pad] is empty. *)
Fixpoint fill (k : nat) (pad cur : string) : string :=
  match k with
  | O => EmptyString
  | S k' =>
      match cur with
      | String a r => String a (fill k' pad r)
      | EmptyString =>
          match pad with
          | String a r => String a (fill k' pad r)
          | EmptyString => EmptyString
          end
      end
  end.

(** [String.prototype.padStart]. *)
Definition padStart (n : nat) (pad s : string) : string :=
  fill (n - String.length s) pad pad ++ s.

(** [s.replace(a, b)] for one-character strings [a] and [b]: only the
    first occurrence is replaced. *)
Fixpoint replaceFirst (a b : ascii) (s : string) : string :=
  match s with
  | EmptyString => EmptyString
  | String c r =>
      if Ascii.eqb c a then String b r else String c (replaceFirst a b r)
  end.

(** [Math.floor(x / d)] and [x % d] on integers, [d] positive: the
    quotient rounds down, the remainder has the sign of [x]. *)
Definition floorDiv (x d : Z) : Z := x / d.
Definition remainder (x d : Z) : Z := Z.rem x d.

(** The double nearest to an integer, ties to the even significand: an
    integer of at most 53 bits is a double; of a longer one the bits
    below the 53 leading ones are rounded off. *)
Definition toDouble (x : Z) : Z :=
  let a := Z.abs x in
  let e := Z.log2 a - 52 in
  if (e <=? 0)%Z then x
  else
    let q := a / 2 ^ e in
    let r := a mod 2 ^ e in
    let half := 2 ^ (e - 1) in
    let q' :=
      if (half <? r)%Z || (Z.eqb r half && Z.odd q) then q + 1 else q in
    Z.sgn x * (q' * 2 ^ e).

End JS.

(** ** Process state *)

(** A socket object is named by its identity. *)
Definition conn := nat.

(** [WebSocket.CONNECTING], [OPEN], [CLOSING], [CLOSED] (0 to 3). *)
Inductive ReadyState : Type := CONNECTING | OPEN | CLOSING | CLOSED.

Definition ReadyState_eqb (a b : ReadyState) : bool :=
  match a, b with
  | CONNECTING, CONNECTING | OPEN, OPEN
  | CLOSING, CLOSING | CLOSED, CLOSED => true
  | _, _ => false
  end.

(** What the code can observe of a [ws] socket: its [readyState], and
    whether a call of its [send] returns ([writable]) or raises, as on
    a write error of the transport.  Both are set by the library, never
    by the code. *)
Record Socket : Type := mkSocket {
  readyState : ReadyState;
  writable : bool
}.

(** One call [c.send(frame)]; [ok] tells whether the call returned. *)
Inductive Effect : Type :=
| SendCall (c : conn) (frame : string) (ok : bool).

Record World : Type := mkWorld {
  clients : list conn;        (* const clients = new Set() *)
  sockets : conn -> Socket;   (* the socket objects *)
  ticks : nat;                (* how many times the clock was read *)
  trace : list Effect         (* calls of send, oldest first *)
}.

Definition set_clients (l : list conn) (w : World) : World :=
  mkWorld l (sockets w) (ticks w) (trace w).

Definition tick (w : World) : World :=
  mkWorld (clients w) (sockets w) (S (ticks w)) (trace w).

Definition record (e : Effect) (w : World) : World :=
  mkWorld (clients w) (sockets w) (ticks w) (trace w ++ [e])%list.

(** ** Computations: state and exceptions *)

Definition M (A : Type) : Type := World -> (JS.exn + A) * World.

Definition ret {A} (a : A) : M A := fun w => (inr a, w).

Definition throw {A} (e : JS.exn) : M A := fun w => (inl e, w).

Definition bind {A B} (m : M A) (k : A -> M B) : M B :=
  fun w =>
    match m w with
    | (inr a, w') => k a w'
    | (inl e, w') => (inl e, w')
    end.

(** [try { m } catch (error) { h error }] *)
Definition try_catch {A} (m : M A) (h : JS.exn -> M A) : M A :=
  fun w =>
    match m w with
    | (inr a, w') => (inr a, w')
    | (inl e, w') => h e w'
    end.

Declare Scope js_scope.
Delimit Scope js_scope with js.
Notation "x <- m ;; k" := (bind m (fun x => k))
  (at level 100, m at next level, right associativity) : js_scope.
Notation "m ;;; k" := (bind m (fun _ => k))
  (at level 100, right associativity) : js_scope.
Open Scope js_scope.

(** ** What the host provides *)

(** The shapes of the options object given to [toLocaleString]. *)
Inductive LocaleStyle : Type :=
| NumericShortZone   (* year, month, day, hour, minute, second, timeZoneName *)
| TimeZoneOnly.      (* { timeZone } alone *)

(** The clock, the environment, the time-zone data base and renderings
    of [Intl], and the JSON codec. *)
Record Host : Type := mkHost {
  clock : nat -> Z;                  (* the k-th reading of the clock *)
  env_TZ : option string;            (* process.env.TZ *)
  valid_tz : string -> bool;         (* is the label a known zone *)
  render : string -> LocaleStyle -> string -> Z -> string;
  toISOString : Z -> string;
  Date_parse : string -> Z;          (* new Date(text).getTime() *)
  hostOffset : Z -> Z;               (* date.getTimezoneOffset() *)
  JSON_stringify : JS.value -> string;
  JSON_parse : string -> option JS.value   (* None: a SyntaxError *)
}.

(** ** src/utils/timeUtils.js *)

Module TimeUtils.

Record Uptime : Type := mkUptime {
  total_milliseconds : Z;
  total_seconds : Z;
  days : Z;
  hours : Z;
  minutes : Z;
  seconds : Z;
  formatted : string;
  formatted_en : string;
  human_readable : string
}.

Record TimezoneInfo : Type := mkTimezoneInfo {
  timezone : string;
  offset : Z;
  offsetString : string;
  localTime : string;
  utcTime : string;
  error : option string
}.

Record Timestamp : Type := mkTimestamp {
  iso : string;
  local : string;
  compact : string;
  unix : Z;
  milliseconds : Z;
  tzinfo : TimezoneInfo      (* the field named timezone *)
}.

(** A [Date] object: a valid one has a time value, an Invalid Date has
    none ([new Date(NaN)], [new Date('no date')]). *)
Inductive Date : Type :=
| Instant (ms : Z)
| InvalidDate.

(** parts.join(' ') *)
Fixpoint join (sep : string) (parts : list string) : string :=
  match parts with
  | [] => EmptyString
  | [p] => p
  | p :: rest => p ++ sep ++ join sep rest
  end.

(** parts.push(x) *)
Definition push (parts : list string) (x : string) : list string :=
  app parts [x].

Definition formatHumanReadableUptime (days hours minutes seconds : Z)
  : string :=
  let parts := [] in
  let parts :=
    if (0 <? days)%Z
    then push parts (JS.numToString days ++ "天") else parts in
  let parts :=
    if (0 <? hours)%Z || (0 <? days)%Z
    then push parts (JS.numToString hours ++ "小时") else parts in
  let parts :=
    if (0 <? minutes)%Z || (0 <? hours)%Z || (0 <? days)%Z
    then push parts (JS.numToString minutes ++ "分钟") else parts in
  let parts := push parts (JS.numToString seconds ++ "秒") in
  join " " parts.

(** The two instants are time values of valid Dates.  Their difference
    is a double; it is an integer below 2^54 in size, and on such a
    number the quotients and remainders below are exact. *)
Definition calculateUptime (startTime endTime : Z) : Uptime :=
  let uptime := JS.toDouble (endTime - startTime) in
  let days := JS.floorDiv uptime (1000 * 60 * 60 * 24) in
  let hours :=
    JS.floorDiv (JS.remainder uptime (1000 * 60 * 60 * 24))
                (1000 * 60 * 60) in
  let minutes :=
    JS.floorDiv (JS.remainder uptime (1000 * 60 * 60)) (1000 * 60) in
  let seconds := JS.floorDiv (JS.remainder uptime (1000 * 60)) 1000 in
  {| total_milliseconds := uptime;
     total_seconds := JS.floorDiv uptime 1000;
     days := days;
     hours := hours;
     minutes := minutes;
     seconds := seconds;
     formatted :=
       JS.numToString days ++ "天 " ++ JS.numToString hours ++ "小时 "
       ++ JS.numToString minutes ++ "分钟 " ++ JS.numToString seconds
       ++ "秒";
     formatted_en :=
       JS.numToString days ++ "d " ++ JS.numToString hours ++ "h "
       ++ JS.numToString minutes ++ "m " ++ JS.numToString seconds ++ "s";
     human_readable :=
       formatHumanReadableUptime days hours minutes seconds |}.

(** The time left over below one second: what the fields days to
    seconds do not account for. *)
Definition subsecond (u : Uptime) : Z :=
  JS.remainder (total_milliseconds u) 1000.

Definition formatTimezoneOffset (offsetMinutes : Z) : string :=
  let sign := if (0 <=? offsetMinutes)%Z then "+" else "-" in
  let absOffset := Z.abs offsetMinutes in
  let hours := JS.floorDiv absOffset 60 in
  let minutes := JS.remainder absOffset 60 in
  sign ++ JS.padStart 2 "0" (JS.numToString hours) ++ ":"
       ++ JS.padStart 2 "0" (JS.numToString minutes).

Definition getCommonTimezones : list string :=
  [ "Asia/Shanghai"; "Asia/Tokyo"; "Asia/Seoul"; "Asia/Hong_Kong";
    "Asia/Singapore"; "Europe/London"; "Europe/Paris";
    "America/New_York"; "America/Los_Angeles"; "UTC" ].

Section WithHost.

Variable host : Host.

(** [process.env.TZ || 'Asia/Shanghai'] *)
Definition DEFAULT_TIMEZONE : string :=
  match env_TZ host with
  | Some tz => if JS.truthy (JS.Str tz) then tz else "Asia/Shanghai"
  | None => "Asia/Shanghai"
  end.

(** [new Date()] *)
Definition newDate : M Z :=
  fun w => (inr (clock host (ticks w)), tick w).

(** [date.toLocaleString(locale, { timeZone: tz, ... })]: a
    [RangeError] when [tz] is not a known zone. *)
Definition toLocaleString (date : Z) (locale : string)
    (style : LocaleStyle) (tz : string) : M string :=
  if valid_tz host tz then ret (render host locale style tz date)
  else throw (JS.RangeError ("Invalid time zone specified: " ++ tz)).

Definition getCurrentTime : M Z := newDate.

(** On a valid Date, given by its time value. *)
Definition formatToISO (date : Z) (tz : string) : string :=
  toISOString host date.

(** [formatToISO] on any Date object: [date.toISOString()] raises a
    RangeError on an Invalid Date. *)
Definition formatToISOOf (date : Date) (tz : string) : M string :=
  match date with
  | Instant ms => ret (formatToISO ms tz)
  | InvalidDate => throw (JS.RangeError "Invalid time value")
  end.

Definition formatToLocal (date : Z) (tz : string) (locale : string)
  : M string :=
  toLocaleString date locale NumericShortZone tz.

Definition formatCompact (date : Z) (tz : string) : M string :=
  s <- toLocaleString date "sv-SE" TimeZoneOnly tz ;;
  ret (JS.replaceFirst "T" " " s).

(** The two renderings have a resolution of one second and zone
    offsets are whole minutes, so the division is exact. *)
Definition getTimezoneOffset (tz : string) : M Z :=
  now <- newDate ;;
  u <- toLocaleString now "en-US" TimeZoneOnly "UTC" ;;
  let utc := Date_parse host u in
  l <- toLocaleString now "en-US" TimeZoneOnly tz ;;
  let local := Date_parse host l in
  ret ((local - utc) / (1000 * 60)).

Definition getTimezoneInfo (tz : string) : M TimezoneInfo :=
  now <- newDate ;;
  let utcTime := now + hostOffset host now * 60000 in
  try_catch
    (o1 <- getTimezoneOffset tz ;;
     let localTime := utcTime + o1 * 60000 in
     o2 <- getTimezoneOffset tz ;;
     o3 <- getTimezoneOffset tz ;;
     lt <- formatToLocal now tz "zh-CN" ;;
     ret {| timezone := tz;
            offset := o2;
            offsetString := formatTimezoneOffset o3;
            localTime := lt;
            utcTime := toISOString host now;
            error := None |})
    (fun _ =>
       ret {| timezone := "UTC";
              offset := 0;
              offsetString := "+00:00";
              localTime := toISOString host now;
              utcTime := toISOString host now;
              error := Some ("Invalid timezone: " ++ tz) |}).

(** On a valid Date, given by its time value. *)
Definition createTimestamp (date : Z) (tz : string) : M Timestamp :=
  let i := formatToISO date tz in
  l <- formatToLocal date tz "zh-CN" ;;
  c <- formatCompact date tz ;;
  t <- getTimezoneInfo tz ;;
  ret {| iso := i;
         local := l;
         compact := c;
         unix := JS.floorDiv date 1000;
         milliseconds := date;
         tzinfo := t |}.

(** [createTimestamp] on any Date object a caller passes: iso is the
    first field evaluated, so on an Invalid Date the call raises there
    and nothing else is evaluated. *)
Definition createTimestampOf (date : Date) (tz : string) : M Timestamp :=
  _ <- formatToISOOf date tz ;;
  match date with
  | Instant ms => createTimestamp ms tz
  | InvalidDate => throw (JS.RangeError "Invalid time value")
  end.

(** [createTimestamp()]: both parameters take their defaults. *)
Definition createTimestampNow : M Timestamp :=
  date <- newDate ;;
  createTimestamp date DEFAULT_TIMEZONE.

(** [Intl.DateTimeFormat(undefined, { timeZone })] raises on an
    unknown zone. *)
Definition isValidTimezone (tz : string) : M bool :=
  try_catch
    (if valid_tz host tz then ret true
     else throw (JS.RangeError ("Invalid time zone specified: " ++ tz)))
    (fun _ => ret false).

End WithHost.

End TimeUtils.

(** ** src/server.js *)

Module Server.

Import TimeUtils.

Record Response : Type := mkResponse {
  status : Z;            (* res.status(n); 200 when not set *)
  body : JS.value        (* the object given to res.json *)
}.

(** What a socket delivers to its handlers. *)
Inductive Event : Type :=
| Close
| Error
| Message (text : string).

Definition startsWith (prefix s : string) : bool := String.prefix prefix s.

Section WithHost.

Variable host : Host.

(** *** The registry: [clients], a [Set] *)

Definition mem (c : conn) (l : list conn) : bool :=
  existsb (Nat.eqb c) l.

(** [clients.add(c)]: a member is not added twice and keeps its place. *)
Definition Set_add (c : conn) : M unit :=
  fun w =>
    if mem c (clients w) then (inr tt, w)
    else (inr tt, set_clients (clients w ++ [c])%list w).

(** [clients.delete(c)]: every entry equal to [c] goes; the result
    tells whether there was one. *)
Definition Set_delete (c : conn) : M bool :=
  fun w =>
    (inr (mem c (clients w)),
     set_clients (filter (fun x => negb (Nat.eqb x c)) (clients w)) w).

(** [clients.size] *)
Definition Set_size : M Z :=
  fun w => (inr (Z.of_nat (List.length (clients w))), w).

Fixpoint forEach (f : conn -> M unit) (l : list conn) : M unit :=
  match l with
  | [] => ret tt
  | c :: rest => f c ;;; forEach f rest
  end.

(** [clients.forEach(f)], for an [f] that leaves the set alone: the
    members are visited in insertion order, and an exception raised
    by [f] ends the visit. *)
Definition Set_forEach (f : conn -> M unit) : M unit :=
  fun w => forEach f (clients w) w.

(** *** Socket objects *)

(** [c.readyState] *)
Definition ws_readyState (c : conn) : M ReadyState :=
  fun w => (inr (readyState (sockets w c)), w).

(** [c.send(frame)] *)
Definition ws_send (c : conn) (frame : string) : M unit :=
  fun w =>
    if writable (sockets w c)
    then (inr tt, record (SendCall c frame true) w)
    else (inl (JS.SendError c), record (SendCall c frame false) w).

(** *** Broadcast *)

Definition broadcastEnvelope (message : JS.value) (t : Timestamp)
  : JS.value :=
  JS.Obj [ ("type", JS.Str "broadcast");
           ("data", message);
           ("timestamp", JS.Str (iso t));
           ("localTime", JS.Str (local t));
           ("timezone", JS.Str (timezone (tzinfo t))) ].

(** The body of the loop of [broadcastMessage]. *)
Definition deliver (messageStr : string) (client : conn) : M unit :=
  rs <- ws_readyState client ;;
  if ReadyState_eqb rs OPEN then ws_send client messageStr else ret tt.

Definition broadcastMessage (message : JS.value) : M unit :=
  timestamp <- createTimestampNow host ;;
  let messageStr :=
    JSON_stringify host (broadcastEnvelope message timestamp) in
  Set_forEach (deliver messageStr).

(** *** POST /api/sendmsg *)

Definition badRequest : Response :=
  {| status := 400;
     body := JS.Obj [ ("success", JS.Bool false);
                      ("error", JS.Str "请求体不能为空") ] |}.

Definition serverError : Response :=
  {| status := 500;
     body := JS.Obj [ ("success", JS.Bool false);
                      ("error", JS.Str "服务器内部错误") ] |}.

Definition sent (clientCount : Z) (t : Timestamp) : Response :=
  {| status := 200;
     body := JS.Obj [ ("success", JS.Bool true);
                      ("message", JS.Str "消息发送成功");
                      ("clientCount", JS.Number clientCount);
                      ("timestamp", JS.Str (iso t));
                      ("localTime", JS.Str (local t));
                      ("timezone", JS.Str (timezone (tzinfo t))) ] |}.

(** The handler, as a function of [req.body]. *)
Definition sendmsg (reqBody : JS.value) : M Response :=
  try_catch
    (let messageData := reqBody in
     if negb (JS.truthy messageData) then ret badRequest
     else
       broadcastMessage messageData ;;;
       responseTimestamp <- createTimestampNow host ;;
       size <- Set_size ;;
       ret (sent size responseTimestamp))
    (fun _ => ret serverError).

(** *** The connection and its handlers *)

Definition welcomeEnvelope (t : Timestamp) : JS.value :=
  JS.Obj [ ("type", JS.Str "welcome");
           ("message", JS.Str "连接成功");
           ("timestamp", JS.Str (iso t));
           ("localTime", JS.Str (local t));
           ("timezone", JS.Str (timezone (tzinfo t))) ].

(** wss.on('connection', ...): when it returns, the three handlers
    below are installed on [ws]. *)
Definition onConnection (ws : conn) : M unit :=
  Set_add ws ;;;
  welcomeTimestamp <- createTimestampNow host ;;
  ws_send ws (JSON_stringify host (welcomeEnvelope welcomeTimestamp)).

(** ws.on('close', ...) *)
Definition onClose (ws : conn) : M unit :=
  _ <- Set_delete ws ;; ret tt.

(** ws.on('error', ...) *)
Definition onError (ws : conn) : M unit :=
  _ <- Set_delete ws ;; ret tt.

(** ws.on('message', ...), on the text of the frame.  The second and
    third branch only write to the console. *)
Definition onMessage (ws : conn) (messageStr : string) : M unit :=
  if String.eqb messageStr "ping" then ws_send ws "pong"
  else if (String.length messageStr <? 100)%nat
          && negb (startsWith "{" messageStr)
          && negb (startsWith "[" messageStr)
  then ret tt
  else
    try_catch
      (match JSON_parse host messageStr with
       | Some _ => ret tt
       | None => throw JS.SyntaxError
       end)
      (fun _ => ret tt).

Definition handle (ws : conn) (ev : Event) : M unit :=
  match ev with
  | Close => onClose ws
  | Error => onError ws
  | Message text => onMessage ws text
  end.

(** The events of one socket whose handlers are installed, handled one
    after the other.  What a handler returns or raises goes to the
    event loop, not to the next handler; the process state it leaves is
    the one the next handler starts from. *)
Definition handleAll (ws : conn) (evs : list Event) (w : World) : World :=
  fold_left (fun w ev => snd (handle ws ev w)) evs w.

(** The life of one socket: the connection, then its events.  The three
    handlers are installed by the last statements of the connection
    handler, so when that raised, at the timestamp or at the welcome
    send, the socket has no handler and its events change nothing. *)
Definition lifecycle (ws : conn) (evs : list Event) (w : World) : World :=
  match onConnection ws w with
  | (inr _, w') => handleAll ws evs w'
  | (inl _, w') => w'
  end.

End WithHost.

End Server.

(** ** src/server.js: GET /api/status *)

Module StatusRoute.

Import TimeUtils Server.

(** The objects the handler puts in its answer. *)
Definition timeObject (t : Timestamp) : JS.value :=
  JS.Obj [ ("iso", JS.Str (iso t));
           ("local", JS.Str (local t));
           ("compact", JS.Str (compact t));
           ("unix", JS.Number (unix t)) ].

(** The object [getTimezoneInfo] returns: the error field exists on the
    fallback only. *)
Definition timezoneObject (i : TimezoneInfo) : JS.value :=
  JS.Obj (app [ ("timezone", JS.Str (TimeUtils.timezone i));
                ("offset", JS.Number (offset i));
                ("offsetString", JS.Str (offsetString i));
                ("localTime", JS.Str (localTime i));
                ("utcTime", JS.Str (utcTime i)) ]
              match error i with
              | Some e => [ ("error", JS.Str e) ]
              | None => []
              end).

Definition uptimeObject (u : Uptime) : JS.value :=
  JS.Obj [ ("total_milliseconds", JS.Number (total_milliseconds u));
           ("total_seconds", JS.Number (total_seconds u));
           ("days", JS.Number (days u));
           ("hours", JS.Number (hours u));
           ("minutes", JS.Number (minutes u));
           ("seconds", JS.Number (seconds u));
           ("formatted", JS.Str (formatted u));
           ("formatted_en", JS.Str (formatted_en u));
           ("human_readable", JS.Str (human_readable u)) ].

Section WithHost.

Variable host : Host.

(** const startTime = timeUtils.getCurrentTime(), read once at start-up. *)
Variable startTime : Z.

(** process.env.PORT || 3000 and process.env.WS_PORT || 9999 *)
Variable PORT : JS.value.
Variable WS_PORT : JS.value.

(** process.memoryUsage(), process.platform, process.version, process.pid *)
Variable memoryUsage : JS.value.
Variable platform : JS.value.
Variable nodeVersion : JS.value.
Variable pid : JS.value.

(** const timezone = process.env.TZ || timeUtils.DEFAULT_TIMEZONE *)
Definition timezone : string :=
  match env_TZ host with
  | Some tz => if JS.truthy (JS.Str tz) then tz else DEFAULT_TIMEZONE host
  | None => DEFAULT_TIMEZONE host
  end.

Definition statusBody (uptime : Uptime) (startTimestamp currentTimestamp
    : Timestamp) (timezoneInfo : TimezoneInfo) (size : Z) : JS.value :=
  JS.Obj
    [ ("status", JS.Str "running");
      ("time",
       JS.Obj [ ("start", timeObject startTimestamp);
                ("current", timeObject currentTimestamp);
                ("timezone", timezoneObject timezoneInfo) ]);
      ("uptime", uptimeObject uptime);
      ("services",
       JS.Obj [ ("websocket",
                 JS.Obj [ ("port", WS_PORT);
                          ("connected_clients", JS.Number size);
                          ("status", JS.Str "running") ]);
                ("http",
                 JS.Obj [ ("port", PORT);
                          ("status", JS.Str "running") ]) ]);
      ("system",
       JS.Obj [ ("memory", memoryUsage);
                ("platform", platform);
                ("nodeVersion", nodeVersion);
                ("pid", pid) ]);
      ("version", JS.Str "1.0.0") ].

(** app.get('/api/status', ...): the handler has no try/catch. *)
Definition apiStatus : M Response :=
  now <- getCurrentTime host ;;
  let uptime := calculateUptime startTime now in
  currentTimestamp <- createTimestamp host now (DEFAULT_TIMEZONE host) ;;
  startTimestamp <- createTimestamp host startTime (DEFAULT_TIMEZONE host) ;;
  timezoneInfo <- getTimezoneInfo host timezone ;;
  size <- Set_size ;;
  ret {| status := 200;
         body := statusBody uptime startTimestamp currentTimestamp
                   timezoneInfo size |}.

(** server.listen(PORT, () => ...): the callback run once when the HTTP
    server starts to listen, before any request is handled.  It has no
    try/catch and the process installs no handler for uncaught
    exceptions, so an exception raised here ends the process. *)
Definition onListening : M unit :=
  startTimestamp <- createTimestamp host startTime (DEFAULT_TIMEZONE host) ;;
  timezoneInfo <- getTimezoneInfo host timezone ;;
  ret tt.

End WithHost.

End StatusRoute.

(** ** Vocabulary of the statements *)

(** [w'] differs from [w] at most by clock readings. *)
Definition only_clock_read (w w' : World) : Prop :=
  clients w' = clients w /\ sockets w' = sockets w /\ trace w' = trace w
  /\ (ticks w <= ticks w')%nat.

(** The calls of [send] made between [w] and [w']. *)
Definition added (w w' : World) : list Effect :=
  skipn (List.length (trace w)) (trace w').

Definition isOpen (sk : conn -> Socket) (c : conn) : bool :=
  ReadyState_eqb (readyState (sk c)) OPEN.

Definition isWritable (sk : conn -> Socket) (c : conn) : bool :=
  writable (sk c).

(** No member with an OPEN transport raises on [send]. *)
Definition sends_return (sk : conn -> Socket) (l : list conn) : bool :=
  forallb (fun c => implb (isOpen sk c) (isWritable sk c)) l.

(** The members [send] is called on when the loop of [broadcastMessage]
    goes through [l]: the OPEN ones, up to and including the first one
    whose [send] raises. *)
Fixpoint attempted (sk : conn -> Socket) (l : list conn) : list conn :=
  match l with
  | [] => []
  | c :: rest =>
      if isOpen sk c
      then c :: (if isWritable sk c then attempted sk rest else [])
      else attempted sk rest
  end.

(** The calls of [send] a broadcast of [frame] makes on the members [l]. *)
Definition calls (sk : conn -> Socket) (frame : string) (l : list conn)
  : list Effect :=
  map (fun c => SendCall c frame (isWritable sk c)) (attempted sk l).

(** The registry [l] once [c] is deleted. *)
Definition without (c : conn) (l : list conn) : list conn :=
  filter (fun x => negb (Nat.eqb x c)) l.

Definition isTrigger (ev : Server.Event) : bool :=
  match ev with
  | Server.Close | Server.Error => true
  | Server.Message _ => false
  end.

(** A payload that is missing ([undefined], [null]) or empty (the empty
    string, array or object). *)
Definition missing_or_empty (v : JS.value) : bool :=
  match v with
  | JS.Undefined | JS.Null => true
  | JS.Str s => Nat.eqb (String.length s) 0
  | JS.Arr items => Nat.eqb (List.length items) 0
  | JS.Obj fields => Nat.eqb (List.length fields) 0
  | _ => false
  end.

(** The socket a call of [send] is made on. *)
Definition target (e : Effect) : conn :=
  match e with SendCall c _ _ => c end.

(** The weight in milliseconds of the days, hours, minutes and seconds
    of an uptime. *)
Definition wholeSeconds (u : TimeUtils.Uptime) : Z :=
  TimeUtils.days u * 86400000 + TimeUtils.hours u * 3600000
  + TimeUtils.minutes u * 60000 + TimeUtils.seconds u * 1000.

(** How many of days, hours, minutes, in this order, come before the
    first one that is positive. *)
Definition leadingZeroUnits (days hours minutes : Z) : nat :=
  if (0 <? days)%Z then 0%nat
  else if (0 <? hours)%Z then 1%nat
  else if (0 <? minutes)%Z then 2%nat
  else 3%nat.

(** How many of the four units of the readable uptime are left out for
    a delta: none from one day on, days below a day, days and hours
    below an hour, all but the seconds below a minute. *)
Definition unitsDropped (delta : Z) : nat :=
  if (86400000 <=? delta)%Z then 0%nat
  else if (3600000 <=? delta)%Z then 1%nat
  else if (60000 <=? delta)%Z then 2%nat
  else 3%nat.

(** Decimal digits, and the number two of them write. *)
Definition isDigit (a : ascii) : bool :=
  (48 <=? nat_of_ascii a)%nat && (nat_of_ascii a <=? 57)%nat.

Definition digitValue (a : ascii) : Z := Z.of_nat (nat_of_ascii a) - 48.

Definition twoDigits (a b : ascii) : Z := 10 * digitValue a + digitValue b.

(** A number below one hundred, padded as [formatTimezoneOffset] does,
    is two digits that write it. *)
Definition padsToTwoDigits (k : nat) : bool :=
  match JS.padStart 2 "0" (JS.numToString (Z.of_nat k)) with
  | String a (String b EmptyString) =>
      isDigit a && isDigit b && Z.eqb (twoDigits a b) (Z.of_nat k)
  | _ => false
  end.

(** The three ways the submission handler can go: the answer, and the
    calls of [send] made. *)
Inductive Outcome (host : Host) (reqBody : JS.value) (w : World)
  : Server.Response -> list Effect -> Prop :=
| Rejected :
    JS.truthy reqBody = false ->
    Outcome host reqBody w Server.badRequest []
| Failed (frame : string) (l : list conn) :
    JS.truthy reqBody = true ->
    valid_tz host (TimeUtils.DEFAULT_TIMEZONE host) = false
    \/ sends_return (sockets w) (clients w) = false ->
    l = [] \/ l = attempted (sockets w) (clients w) ->
    Outcome host reqBody w Server.serverError
      (map (fun c => SendCall c frame (isWritable (sockets w) c)) l)
| Sent (frame : string) (t : TimeUtils.Timestamp) :
    JS.truthy reqBody = true ->
    valid_tz host (TimeUtils.DEFAULT_TIMEZONE host) = true ->
    sends_return (sockets w) (clients w) = true ->
    Outcome host reqBody w
      (Server.sent (Z.of_nat (List.length (clients w))) t)
      (calls (sockets w) frame (clients w)).

(** The time values a Date can hold. *)
Definition validTime (t : Z) : Prop :=
  -8640000000000000 <= t <= 8640000000000000.

(** The calls [clients.delete(ws)] the handler of an event of [ws]
    makes when it runs in [w], each with what the call returns: one in
    the close handler, one in the error handler, none in the message
    handler. *)
Definition deleteCalls (ws : conn) (ev : Server.Event) (w : World)
  : list (conn * bool) :=
  match ev with
  | Server.Close => [ (ws, Server.mem ws (clients w)) ]
  | Server.Error => [ (ws, Server.mem ws (clients w)) ]
  | Server.Message _ => []
  end.

(** The registry after calls of [clients.delete]. *)
Definition afterDeletes (calls : list (conn * bool)) (l : list conn)
  : list conn :=
  fold_left (fun l call => without (fst call) l) calls l.

(** Frames whose text is the keepalive token. *)
Definition isPing (ev : Server.Event) : bool :=
  match ev with
  | Server.Message text => String.eqb text "ping"
  | _ => false
  end.

(** ** A concrete host and concrete process states *)

Module Scenario.

Definition known (tz : string) : bool :=
  existsb (String.eqb tz) TimeUtils.getCommonTimezones.

(** A plain rendering of a value, good enough to tell frames apart. *)
Fixpoint show (v : JS.value) : string :=
  match v with
  | JS.Undefined => "undefined"
  | JS.Null => "null"
  | JS.Bool true => "true"
  | JS.Bool false => "false"
  | JS.Number n => JS.numToString n
  | JS.Str s => s
  | JS.Arr items =>
      "[" ++ (fix go (l : list JS.value) : string :=
                match l with
                | [] => EmptyString
                | x :: r => show x ++ "," ++ go r
                end) items ++ "]"
  | JS.Obj fields =>
      "{" ++ (fix go (l : list (string * JS.value)) : string :=
                match l with
                | [] => EmptyString
                | (k, x) :: r => k ++ ":" ++ show x ++ "," ++ go r
                end) fields ++ "}"
  end.

Definition host : Host :=
  {| clock := fun k => 1700000000000 + 1000 * Z.of_nat k;
     env_TZ := None;
     valid_tz := known;
     render := fun locale _ tz d => JS.numToString d ++ " " ++ tz;
     toISOString := fun d => JS.numToString d ++ "Z";
     Date_parse := fun _ => 0;
     hostOffset := fun _ => 0;
     JSON_stringify := show;
     JSON_parse := fun _ => None |}.

Definition A : conn := 1%nat.
Definition B : conn := 2%nat.
Definition C : conn := 3%nat.

Definition healthy : Socket := mkSocket OPEN true.
Definition failing : Socket := mkSocket OPEN false.
Definition closed : Socket := mkSocket CLOSED true.

(** No connection. *)
Definition nobody : World :=
  mkWorld [] (fun _ => healthy) 0 [].

(** A, B and C are open; the transport of B raises on a write. *)
Definition B_fails : World :=
  mkWorld [A; B; C] (fun c => if Nat.eqb c B then failing else healthy)
          0 [].

(** A, B and C are registered; the transport of B is closed. *)
Definition B_closed : World :=
  mkWorld [A; B; C] (fun c => if Nat.eqb c B then closed else healthy)
          0 [].

Definition hi : JS.value := JS.Obj [ ("msg", JS.Str "hi") ].

Definition x1 : JS.value := JS.Obj [ ("x", JS.Number 1) ].

End Scenario.

(** A host whose environment names a zone it does not know. *)
Module Misconfigured.

Definition host : Host :=
  {| clock := clock Scenario.host;
     env_TZ := Some "Mars/Olympus";
     valid_tz := valid_tz Scenario.host;
     render := render Scenario.host;
     toISOString := toISOString Scenario.host;
     Date_parse := Date_parse Scenario.host;
     hostOffset := hostOffset Scenario.host;
     JSON_stringify := JSON_stringify Scenario.host;
     JSON_parse := JSON_parse Scenario.host |}.

End Misconfigured.

(** * Properties *)

(** ** Doubles that are integers *)

Module DoubleFacts.

(** An integer of at most 53 bits is a double. *)
Lemma toDouble_exact (x : Z) :
  Z.abs x <= 9007199254740992 -> JS.toDouble x = x.
Proof.
  intros H.
  destruct (Z.eq_dec (Z.abs x) 9007199254740992) as [E|E].
  - destruct (Z.abs_spec x) as [[_ Ha]|[_ Ha]]; rewrite Ha in E.
    + subst x. vm_compute. reflexivity.
    + assert (x = -9007199254740992) by lia. subst x. vm_compute. reflexivity.
  - unfold JS.toDouble. cbn zeta.
    assert (Hl : Z.log2 (Z.abs x) - 52 <= 0).
    { destruct (Z.eq_dec (Z.abs x) 0) as [Z0|Z0].
      - rewrite Z0. cbn. lia.
      - assert (Z.log2 (Z.abs x) < 53); [|lia].
        apply Z.log2_lt_pow2; [lia|].
        change (2 ^ 53) with 9007199254740992. lia. }
    apply Z.leb_le in Hl. rewrite Hl. reflexivity.
Qed.

(** What the rounding keeps of a long integer: a significand of 53
    bits. *)
Lemma toDouble_long (x : Z) :
  0 < Z.log2 (Z.abs x) - 52 ->
  exists q e,
    0 < e /\ 4503599627370496 <= q
    /\ JS.toDouble x = Z.sgn x * (q * 2 ^ e).
Proof.
  intros He. unfold JS.toDouble. cbn zeta.
  assert (Hl : (Z.log2 (Z.abs x) - 52 <=? 0)%Z = false)
    by (apply Z.leb_gt; lia).
  rewrite Hl.
  set (e := Z.log2 (Z.abs x) - 52) in *.
  set (q := Z.abs x / 2 ^ e).
  assert (Hq : 4503599627370496 <= q).
  { unfold q. apply Z.div_le_lower_bound; [apply Z.pow_pos_nonneg; lia|].
    change 4503599627370496 with (2 ^ 52).
    rewrite <- Z.pow_add_r by lia.
    replace (e + 52) with (Z.log2 (Z.abs x)) by (unfold e; lia).
    apply Z.log2_spec.
    destruct (Z.eq_dec (Z.abs x) 0) as [Z0|Z0]; [|lia].
    exfalso. unfold e in He. rewrite Z0 in He. cbn in He. lia. }
  match goal with
  | |- context [if ?b then q + 1 else q] =>
      exists (if b then q + 1 else q), e; destruct b
  end; repeat split; try lia.
Qed.

Lemma toDouble_nonneg (x : Z) : 0 <= x -> 0 <= JS.toDouble x.
Proof.
  intros H.
  destruct (Z_lt_le_dec 0 (Z.log2 (Z.abs x) - 52)) as [He|He].
  - destruct (toDouble_long x He) as (q & e & H0 & Hq & ->).
    assert (0 < 2 ^ e) by (apply Z.pow_pos_nonneg; lia).
    assert (0 <= Z.sgn x) by (apply Z.sgn_nonneg; lia). nia.
  - unfold JS.toDouble. cbn zeta. apply Z.leb_le in He. rewrite He. exact H.
Qed.

Lemma toDouble_neg (x : Z) : x < 0 -> JS.toDouble x < 0.
Proof.
  intros H.
  destruct (Z_lt_le_dec 0 (Z.log2 (Z.abs x) - 52)) as [He|He].
  - destruct (toDouble_long x He) as (q & e & H0 & Hq & ->).
    assert (0 < 2 ^ e) by (apply Z.pow_pos_nonneg; lia).
    rewrite (Z.sgn_neg x) by lia. nia.
  - unfold JS.toDouble. cbn zeta. apply Z.leb_le in He. rewrite He. exact H.
Qed.

(** Rounding a long positive integer never takes it below 2^53. *)
Lemma toDouble_large (x : Z) :
  9007199254740992 <= x -> 9007199254740992 <= JS.toDouble x.
Proof.
  intros H.
  destruct (Z_lt_le_dec 0 (Z.log2 (Z.abs x) - 52)) as [He|He].
  - destruct (toDouble_long x He) as (q & e & H0 & Hq & ->).
    rewrite (Z.sgn_pos x) by lia.
    assert (2 <= 2 ^ e).
    { change 2 with (2 ^ 1) at 1. apply Z.pow_le_mono_r; lia. }
    nia.
  - unfold JS.toDouble. cbn zeta. apply Z.leb_le in He. rewrite He. exact H.
Qed.

End DoubleFacts.

(** ** Elapsed time *)

Module UptimeFacts.

Import TimeUtils.

Lemma remainder_nonneg (x d : Z) :
  0 <= x -> 0 < d -> JS.remainder x d = x mod d.
Proof.
  intros Hx Hd. unfold JS.remainder. apply Z.rem_mod_nonneg; lia.
Qed.

(** The fields of an uptime, for a delta that is not negative: they
    are those of the delta as a double. *)
Lemma fields_of_delta (s e : Z) :
  0 <= e - s ->
  let d := JS.toDouble (e - s) in
  let u := calculateUptime s e in
  0 <= d
  /\ total_milliseconds u = d
  /\ total_seconds u = d / 1000
  /\ days u = d / 86400000
  /\ hours u = (d mod 86400000) / 3600000
  /\ minutes u = (d mod 3600000) / 60000
  /\ seconds u = (d mod 60000) / 1000
  /\ subsecond u = d mod 1000.
Proof.
  intros H. cbn zeta.
  pose proof (DoubleFacts.toDouble_nonneg (e - s) H) as Hd.
  unfold subsecond, calculateUptime. cbn [total_milliseconds
    total_seconds days hours minutes seconds]. unfold JS.floorDiv.
  rewrite !remainder_nonneg by lia.
  change (1000 * 60 * 60 * 24) with 86400000.
  change (1000 * 60 * 60) with 3600000.
  change (1000 * 60) with 60000.
  repeat split; try reflexivity. exact Hd.
Qed.

Lemma fields_in_range (s e : Z) :
  0 <= e - s ->
  let u := calculateUptime s e in
  0 <= days u /\ 0 <= hours u < 24 /\ 0 <= minutes u < 60
  /\ 0 <= seconds u < 60 /\ 0 <= subsecond u < 1000.
Proof.
  intros H.
  destruct (fields_of_delta s e H) as (H0 & _ & _ & Hd & Hh & Hm & Hs & Hr).
  cbn zeta. rewrite Hd, Hh, Hm, Hs, Hr. clear Hd Hh Hm Hs Hr.
  Z.div_mod_to_equations. lia.
Qed.

End UptimeFacts.

(** C6, as the claim has it, fails for instants that are far apart: the
    delta between the first instant a Date can hold but one and the
    last is 17279999999999999 ms, which no double is; the code works on
    the nearest double, 17280000000000000, and its fields and remainder
    add up to that and not to the delta. *)
Lemma C6_far_instants_lose_a_millisecond :
  ~ (forall startTime endTime : Z,
       validTime startTime -> validTime endTime ->
       0 <= endTime - startTime ->
       wholeSeconds (TimeUtils.calculateUptime startTime endTime)
       + TimeUtils.subsecond (TimeUtils.calculateUptime startTime endTime)
       = endTime - startTime).
Proof.
  intros H.
  specialize (H (-8640000000000000) 8639999999999999).
  assert (E : wholeSeconds
                (TimeUtils.calculateUptime (-8640000000000000)
                   8639999999999999)
              + TimeUtils.subsecond
                  (TimeUtils.calculateUptime (-8640000000000000)
                     8639999999999999)
              = 17280000000000000) by (vm_compute; reflexivity).
  rewrite E in H. unfold validTime in H.
  assert (17280000000000000 = 8639999999999999 - -8640000000000000)
    by (apply H; lia).
  lia.
Qed.

(** C6, amended.  For two instants a Date can hold, the end not before
    the start: total_milliseconds is the delta as a double; the days,
    hours, minutes and seconds weigh at most total_milliseconds and
    less than one second short of it, and adding the time below one
    second gives total_milliseconds back exactly; total_milliseconds is
    the exact delta when that is at most 2^53 ms; and a delta of
    7,265,432 ms gives 0 days, 2 hours, 1 minute, 5 seconds. *)
Theorem C6_uptime_decomposition (startTime endTime : Z) :
  validTime startTime -> validTime endTime ->
  0 <= endTime - startTime ->
  let u := TimeUtils.calculateUptime startTime endTime in
  let whole := TimeUtils.days u * 86400000 + TimeUtils.hours u * 3600000
               + TimeUtils.minutes u * 60000 + TimeUtils.seconds u * 1000 in
  TimeUtils.total_milliseconds u = JS.toDouble (endTime - startTime)
  /\ whole <= TimeUtils.total_milliseconds u < whole + 1000
  /\ TimeUtils.total_milliseconds u = whole + TimeUtils.subsecond u
  /\ (endTime - startTime <= 9007199254740992 ->
      TimeUtils.total_milliseconds u = endTime - startTime)
  /\ (endTime - startTime = 7265432 ->
      TimeUtils.days u = 0 /\ TimeUtils.hours u = 2
      /\ TimeUtils.minutes u = 1 /\ TimeUtils.seconds u = 5
      /\ TimeUtils.total_milliseconds u = 7265432).
Proof.
  intros _ _ H.
  destruct (UptimeFacts.fields_of_delta startTime endTime H)
    as (H0 & Ht & _ & Hd & Hh & Hm & Hs & Hr).
  cbn zeta in *. rewrite Ht, Hd, Hh, Hm, Hs, Hr.
  split; [reflexivity|]. split; [|split; [|split]].
  - Z.div_mod_to_equations. lia.
  - Z.div_mod_to_equations. lia.
  - intros Hb. apply DoubleFacts.toDouble_exact. lia.
  - intros E. rewrite E. repeat split; reflexivity.
Qed.

Lemma C6_uptime_decomposition_witness :
  let u := TimeUtils.calculateUptime 1700000000000 1700007265432 in
  TimeUtils.days u = 0 /\ TimeUtils.hours u = 2
  /\ TimeUtils.minutes u = 1 /\ TimeUtils.seconds u = 5
  /\ TimeUtils.total_milliseconds u = 7265432.
Proof.
  apply (C6_uptime_decomposition 1700000000000 1700007265432);
    unfold validTime; reflexivity || lia.
Defined.

(** ** Timestamps *)

Module TimestampFacts.

Import TimeUtils.

Lemma only_clock_read_refl (w : World) : only_clock_read w w.
Proof. unfold only_clock_read. repeat split; auto. Qed.

Lemma only_clock_read_trans (w1 w2 w3 : World) :
  only_clock_read w1 w2 -> only_clock_read w2 w3 -> only_clock_read w1 w3.
Proof.
  unfold only_clock_read. intros (A1 & A2 & A3 & A4) (B1 & B2 & B3 & B4).
  repeat split; try congruence. lia.
Qed.

Lemma only_clock_read_tick (w : World) : only_clock_read w (tick w).
Proof. unfold only_clock_read, tick. cbn. repeat split; auto. Qed.

Create HintDb frame.
#[local] Hint Resolve only_clock_read_refl only_clock_read_tick : frame.

Section WithHost.

Variable host : Host.

Lemma toLocaleString_frame date locale style tz w r w' :
  toLocaleString host date locale style tz w = (r, w') -> w' = w.
Proof.
  unfold toLocaleString, ret, throw.
  destruct (valid_tz host tz); intros E; inversion E; reflexivity.
Qed.

Lemma getTimezoneOffset_frame tz w r w' :
  getTimezoneOffset host tz w = (r, w') -> w' = tick w.
Proof.
  unfold getTimezoneOffset, bind, newDate, toLocaleString, ret, throw.
  destruct (valid_tz host "UTC"); destruct (valid_tz host tz);
    intros E; inversion E; reflexivity.
Qed.

Lemma getTimezoneOffset_invalid tz w :
  valid_tz host tz = false ->
  exists e, getTimezoneOffset host tz w = (inl e, tick w).
Proof.
  intros Hv.
  unfold getTimezoneOffset, bind, newDate, toLocaleString, ret, throw.
  rewrite Hv. destruct (valid_tz host "UTC"); eexists; reflexivity.
Qed.

(** [getTimezoneInfo] returns for every label: its body is guarded. *)
Lemma getTimezoneInfo_returns tz w :
  exists t w',
    getTimezoneInfo host tz w = (inr t, w')
    /\ only_clock_read w w'
    /\ (timezone t = tz \/ timezone t = "UTC").
Proof.
  unfold getTimezoneInfo, bind at 1, newDate, try_catch.
  unfold bind at 1.
  destruct (getTimezoneOffset host tz (tick w)) as [[e|o1] w1] eqn:E1.
  { apply getTimezoneOffset_frame in E1. subst w1.
    eexists _, _. split; [reflexivity|]. split; [|right; reflexivity].
    eapply only_clock_read_trans; eauto with frame. }
  apply getTimezoneOffset_frame in E1. subst w1.
  unfold bind at 1.
  destruct (getTimezoneOffset host tz (tick (tick w))) as [[e|o2] w2] eqn:E2.
  { apply getTimezoneOffset_frame in E2. subst w2.
    eexists _, _. split; [reflexivity|]. split; [|right; reflexivity].
    repeat (eapply only_clock_read_trans; eauto with frame). }
  apply getTimezoneOffset_frame in E2. subst w2.
  unfold bind at 1.
  destruct (getTimezoneOffset host tz (tick (tick (tick w))))
    as [[e|o3] w3] eqn:E3.
  { apply getTimezoneOffset_frame in E3. subst w3.
    eexists _, _. split; [reflexivity|]. split; [|right; reflexivity].
    repeat (eapply only_clock_read_trans; eauto with frame). }
  apply getTimezoneOffset_frame in E3. subst w3.
  unfold bind, formatToLocal, toLocaleString, ret, throw.
  destruct (valid_tz host tz).
  - eexists _, _. split; [reflexivity|]. split; [|left; reflexivity].
    repeat (eapply only_clock_read_trans; eauto with frame).
  - eexists _, _. split; [reflexivity|]. split; [|right; reflexivity].
    repeat (eapply only_clock_read_trans; eauto with frame).
Qed.

(** On a label that is not a zone, [getTimezoneInfo] gives the UTC
    record with the error field set. *)
Lemma getTimezoneInfo_invalid tz w :
  valid_tz host tz = false ->
  let now := clock host (ticks w) in
  getTimezoneInfo host tz w =
    (inr {| timezone := "UTC";
            offset := 0;
            offsetString := "+00:00";
            localTime := toISOString host now;
            utcTime := toISOString host now;
            error := Some ("Invalid timezone: " ++ tz) |},
     tick (tick w)).
Proof.
  intros Hv. cbn zeta.
  unfold getTimezoneInfo, bind at 1, newDate, try_catch.
  unfold bind at 1.
  destruct (getTimezoneOffset_invalid tz (tick w) Hv) as [e He].
  rewrite He. reflexivity.
Qed.

(** On a label that is not a zone, [createTimestamp] raises: the
    rendering of [local] comes before [getTimezoneInfo] and is not
    guarded. *)
Lemma createTimestamp_invalid date tz w :
  valid_tz host tz = false ->
  createTimestamp host date tz w =
    (inl (JS.RangeError ("Invalid time zone specified: " ++ tz)), w).
Proof.
  intros Hv.
  unfold createTimestamp, bind, formatToLocal, toLocaleString, throw.
  rewrite Hv. reflexivity.
Qed.

Lemma createTimestamp_valid date tz w :
  valid_tz host tz = true ->
  exists t w',
    createTimestamp host date tz w = (inr t, w')
    /\ only_clock_read w w'
    /\ iso t = toISOString host date
    /\ local t = render host "zh-CN" NumericShortZone tz date
    /\ milliseconds t = date.
Proof.
  intros Hv.
  destruct (getTimezoneInfo_returns tz w) as (i & w' & Ei & Hf & _).
  unfold createTimestamp, bind, formatToLocal, formatCompact,
    toLocaleString, ret.
  rewrite Hv. unfold bind, ret. rewrite Ei.
  eexists _, _. split; [reflexivity|]. cbn. auto.
Qed.

Lemma createTimestampNow_valid w :
  valid_tz host (DEFAULT_TIMEZONE host) = true ->
  exists t w',
    createTimestampNow host w = (inr t, w')
    /\ only_clock_read w w'
    /\ iso t = toISOString host (clock host (ticks w))
    /\ local t = render host "zh-CN" NumericShortZone (DEFAULT_TIMEZONE host)
                  (clock host (ticks w))
    /\ milliseconds t = clock host (ticks w).
Proof.
  intros Hv. unfold createTimestampNow, bind at 1, newDate.
  destruct (createTimestamp_valid (clock host (ticks w))
              (DEFAULT_TIMEZONE host) (tick w) Hv)
    as (t & w' & E & Hf & Hi & Hl & Hm).
  rewrite E. exists t, w'. split; [reflexivity|].
  split; [|auto].
  eapply only_clock_read_trans; eauto with frame.
Qed.

Lemma createTimestampNow_invalid w :
  valid_tz host (DEFAULT_TIMEZONE host) = false ->
  exists e, createTimestampNow host w = (inl e, tick w).
Proof.
  intros Hv. unfold createTimestampNow, bind at 1, newDate.
  rewrite createTimestamp_invalid by assumption. eexists; reflexivity.
Qed.

Lemma createTimestampNow_frame w r w' :
  createTimestampNow host w = (r, w') -> only_clock_read w w'.
Proof.
  intros E.
  destruct (valid_tz host (DEFAULT_TIMEZONE host)) eqn:Hv.
  - destruct (createTimestampNow_valid w Hv) as (t & w1 & E1 & Hf & _).
    rewrite E1 in E. inversion E; subst. exact Hf.
  - destruct (createTimestampNow_invalid w Hv) as (e & E1).
    rewrite E1 in E. inversion E; subst. auto with frame.
Qed.

End WithHost.

End TimestampFacts.

(** C5. The claim is that the timestamp formatter returns for every zone
    label.  [createTimestamp] does not: on the label "Mars/Olympus",
    which the host does not know, it raises the [RangeError] of
    [toLocaleString] and produces no snapshot, while [getTimezoneInfo]
    on the same label returns the UTC record with its error field. *)
Theorem C5_createTimestamp_raises_on_unknown_zone :
  valid_tz Scenario.host "Mars/Olympus" = false
  /\ TimeUtils.createTimestamp Scenario.host 1700000000000 "Mars/Olympus"
       Scenario.nobody
     = (inl (JS.RangeError "Invalid time zone specified: Mars/Olympus"),
        Scenario.nobody)
  /\ fst (TimeUtils.getTimezoneInfo Scenario.host "Mars/Olympus"
            Scenario.nobody)
     = inr {| TimeUtils.timezone := "UTC";
              TimeUtils.offset := 0;
              TimeUtils.offsetString := "+00:00";
              TimeUtils.localTime := "1700000000000Z";
              TimeUtils.utcTime := "1700000000000Z";
              TimeUtils.error := Some "Invalid timezone: Mars/Olympus" |}.
Proof.
  split; [reflexivity|]. split.
  - apply TimestampFacts.createTimestamp_invalid. reflexivity.
  - rewrite TimestampFacts.getTimezoneInfo_invalid by reflexivity.
    reflexivity.
Qed.

(** ** The registry *)

Module RegistryFacts.

Import Server.

Lemma mem_In (c : conn) (l : list conn) : mem c l = true <-> In c l.
Proof.
  unfold mem. rewrite existsb_exists. split.
  - intros (x & Hx & E). apply Nat.eqb_eq in E. subst. assumption.
  - intros H. exists c. split; [assumption | apply Nat.eqb_refl].
Qed.

Lemma mem_false (c : conn) (l : list conn) : mem c l = false <-> ~ In c l.
Proof.
  rewrite <- mem_In. destruct (mem c l); split; intros; congruence.
Qed.

Lemma without_absent (c : conn) (l : list conn) :
  ~ In c l -> without c l = l.
Proof.
  induction l as [|x l IH]; intros H; [reflexivity|].
  cbn. destruct (Nat.eqb_spec x c) as [->|Hne].
  - exfalso. apply H. left. reflexivity.
  - cbn. f_equal. apply IH. intros Hin. apply H. right. assumption.
Qed.

Lemma In_without (c x : conn) (l : list conn) :
  In x (without c l) <-> In x l /\ x <> c.
Proof.
  unfold without. rewrite filter_In, negb_true_iff, Nat.eqb_neq. tauto.
Qed.

Lemma without_not_In (c : conn) (l : list conn) : ~ In c (without c l).
Proof. rewrite In_without. tauto. Qed.

Lemma set_clients_same (w : World) : set_clients (clients w) w = w.
Proof. destruct w; reflexivity. Qed.

Lemma Set_delete_spec (c : conn) (w : World) :
  Set_delete c w = (inr (mem c (clients w)),
                    set_clients (without c (clients w)) w).
Proof. reflexivity. Qed.

Lemma Set_delete_absent (c : conn) (w : World) :
  ~ In c (clients w) -> Set_delete c w = (inr false, w).
Proof.
  intros H. rewrite Set_delete_spec.
  rewrite without_absent by assumption.
  rewrite set_clients_same.
  apply mem_false in H. rewrite H. reflexivity.
Qed.

End RegistryFacts.

(** C8. Deleting a connection that is not in the registry returns
    (it tells [false]) and leaves the whole process state, so the
    members and the size of the registry, as they were; the close and
    the error handler, which do nothing else, do the same.  In
    particular a second deletion changes nothing. *)
Theorem C8_deregister_idempotent (c : conn) (w : World) :
  ~ In c (clients w) ->
  Server.Set_delete c w = (inr false, w)
  /\ Server.onClose c w = (inr tt, w)
  /\ Server.onError c w = (inr tt, w)
  /\ (forall w0 : World,
        snd (Server.Set_delete c (snd (Server.Set_delete c w0)))
        = snd (Server.Set_delete c w0)).
Proof.
  intros H.
  pose proof (RegistryFacts.Set_delete_absent c w H) as E.
  split; [exact E|]. split; [|split].
  - unfold Server.onClose, bind. rewrite E. reflexivity.
  - unfold Server.onError, bind. rewrite E. reflexivity.
  - intros w0.
    rewrite (RegistryFacts.Set_delete_absent c (snd (Server.Set_delete c w0))).
    + reflexivity.
    + rewrite RegistryFacts.Set_delete_spec. cbn.
      apply RegistryFacts.without_not_In.
Qed.

Lemma C8_deregister_idempotent_witness :
  Server.Set_delete Scenario.B
    (snd (Server.Set_delete Scenario.B Scenario.B_closed))
  = (inr false, snd (Server.Set_delete Scenario.B Scenario.B_closed)).
Proof.
  apply (C8_deregister_idempotent Scenario.B
           (snd (Server.Set_delete Scenario.B Scenario.B_closed))).
  cbn. intros [E|[E|[]]]; discriminate E.
Defined.

(** ** Broadcast and the submission handler *)

Module ServerFacts.

Import TimeUtils Server.

Lemma trace_record (e : Effect) (w : World) :
  trace (record e w) = (trace w ++ [e])%list.
Proof. reflexivity. Qed.

(** The loop of [broadcastMessage], whatever the sockets do. *)
Lemma forEach_deliver (frame : string) (l : list conn) (w : World) :
  exists r,
    forEach (deliver frame) l w
    = (r, mkWorld (clients w) (sockets w) (ticks w)
            (trace w ++ calls (sockets w) frame l)%list)
    /\ (sends_return (sockets w) l = true -> r = inr tt)
    /\ (sends_return (sockets w) l = false -> exists e, r = inl e).
Proof.
  revert w. induction l as [|c l IH]; intros w.
  - exists (inr tt). cbn. unfold ret. rewrite app_nil_r.
    destruct w; cbn. repeat split; auto. discriminate.
  - cbn [forEach]. unfold bind at 1. unfold deliver at 1.
    unfold bind at 1. unfold ws_readyState.
    change (ReadyState_eqb (readyState (sockets w c)) OPEN)
      with (isOpen (sockets w) c).
    unfold calls. cbn [attempted sends_return forallb].
    fold (sends_return (sockets w) l).
    destruct (isOpen (sockets w) c) eqn:Ho.
    + unfold ws_send.
      change (writable (sockets w c)) with (isWritable (sockets w) c).
      destruct (isWritable (sockets w) c) eqn:Hw.
      * destruct (IH (record (SendCall c frame true) w)) as (r & E & Hok & Hko).
        exists r. rewrite E. unfold calls. cbn [record sockets clients ticks trace map implb andb].
        rewrite <- app_assoc. cbn [app]. rewrite Hw.
        repeat split; auto.
      * exists (inl (JS.SendError c)). cbn [map implb andb]. rewrite Hw.
        repeat split; eauto. discriminate.
    + unfold ret.
      destruct (IH w) as (r & E & Hok & Hko).
      exists r. rewrite E. cbn. repeat split; auto.
Qed.

Lemma attempted_all_return (sk : conn -> Socket) (l : list conn) :
  sends_return sk l = true -> attempted sk l = filter (isOpen sk) l.
Proof.
  induction l as [|c l IH]; [reflexivity|].
  cbn. intros H. apply andb_true_iff in H. destruct H as [Hc Hl].
  destruct (isOpen sk c); cbn in Hc.
  - rewrite Hc. f_equal. auto.
  - auto.
Qed.

Lemma attempted_open_members (sk : conn -> Socket) (l : list conn) (c : conn) :
  In c (attempted sk l) -> In c l /\ isOpen sk c = true.
Proof.
  induction l as [|x l IH]; cbn; [tauto|].
  destruct (isOpen sk x) eqn:Ho.
  - intros [E|H].
    + subst. auto.
    + destruct (isWritable sk x); [|contradiction].
      destruct (IH H). auto.
  - intros H. destruct (IH H). auto.
Qed.

(** Up to and including the first member whose [send] raises. *)
Lemma attempted_until_failure (sk : conn -> Socket) (pre post : list conn)
    (b : conn) :
  sends_return sk pre = true ->
  isOpen sk b = true -> isWritable sk b = false ->
  attempted sk (pre ++ b :: post) = (filter (isOpen sk) pre ++ [b])%list
  /\ sends_return sk (pre ++ b :: post) = false.
Proof.
  intros Hpre Ho Hw. induction pre as [|c pre IH].
  - cbn. rewrite Ho, Hw. cbn. auto.
  - cbn in Hpre. apply andb_true_iff in Hpre. destruct Hpre as [Hc Hp].
    destruct (IH Hp) as [IHa IHs].
    cbn [app attempted sends_return forallb filter].
    fold (sends_return sk (pre ++ b :: post)).
    rewrite IHa, IHs, andb_false_r.
    destruct (isOpen sk c); cbn in Hc.
    + rewrite Hc. cbn. auto.
    + auto.
Qed.

Lemma added_app (w w' : World) (l : list Effect) :
  trace w' = (trace w ++ l)%list -> added w w' = l.
Proof.
  intros E. unfold added. rewrite E.
  rewrite skipn_app, skipn_all, Nat.sub_diag. reflexivity.
Qed.

Section WithHost.

Variable host : Host.

(** [broadcastMessage] when the configured zone is known: one
    timestamp is taken, at the first reading of the clock, and the
    loop runs with the one frame made from it. *)
Lemma broadcastMessage_valid (message : JS.value) (w : World) :
  valid_tz host (DEFAULT_TIMEZONE host) = true ->
  exists t w1,
    createTimestampNow host w = (inr t, w1)
    /\ only_clock_read w w1
    /\ iso t = toISOString host (clock host (ticks w))
    /\ local t = render host "zh-CN" NumericShortZone (DEFAULT_TIMEZONE host)
                  (clock host (ticks w))
    /\ broadcastMessage host message w
       = forEach (deliver (JSON_stringify host (broadcastEnvelope message t)))
           (clients w) w1.
Proof.
  intros Hv.
  destruct (TimestampFacts.createTimestampNow_valid host w Hv)
    as (t & w1 & E & Hf & Hi & Hl & _).
  exists t, w1. repeat split; try assumption; try apply Hf.
  unfold broadcastMessage, bind. rewrite E. unfold Set_forEach.
  destruct Hf as (Hc & _). rewrite Hc. reflexivity.
Qed.

Lemma broadcastMessage_invalid (message : JS.value) (w : World) :
  valid_tz host (DEFAULT_TIMEZONE host) = false ->
  exists e, broadcastMessage host message w = (inl e, tick w).
Proof.
  intros Hv.
  destruct (TimestampFacts.createTimestampNow_invalid host w Hv) as (e & E).
  exists e. unfold broadcastMessage, bind. rewrite E. reflexivity.
Qed.

(** What one broadcast does to the process state. *)
Lemma broadcastMessage_effects (message : JS.value) (w : World) :
  exists (t : Timestamp) r w',
    broadcastMessage host message w = (r, w')
    /\ iso t = toISOString host (clock host (ticks w))
    /\ local t = render host "zh-CN" NumericShortZone (DEFAULT_TIMEZONE host)
                  (clock host (ticks w))
    /\ clients w' = clients w
    /\ sockets w' = sockets w
    /\ (exists l,
          (forall c, In c l -> In c (clients w) /\ isOpen (sockets w) c = true)
          /\ trace w' =
             (trace w
              ++ map (fun c =>
                        SendCall c
                          (JSON_stringify host (broadcastEnvelope message t))
                          (isWritable (sockets w) c)) l)%list).
Proof.
  destruct (valid_tz host (DEFAULT_TIMEZONE host)) eqn:Hv.
  - destruct (broadcastMessage_valid message w Hv)
      as (t & w1 & _ & (Hc & Hs & Ht & _) & Hi & Hl & E).
    destruct (forEach_deliver
                (JSON_stringify host (broadcastEnvelope message t))
                (clients w) w1) as (r & E' & _).
    exists t, r. eexists. split; [rewrite E; exact E'|].
    cbn. rewrite Hc, Hs, Ht. repeat split; auto.
    exists (attempted (sockets w) (clients w)). split; [|reflexivity].
    intros c. apply attempted_open_members.
  - destruct (broadcastMessage_invalid message w Hv) as (e & E).
    exists {| iso := toISOString host (clock host (ticks w));
              local := render host "zh-CN" NumericShortZone
                       (DEFAULT_TIMEZONE host) (clock host (ticks w));
              compact := EmptyString; unix := 0;
              milliseconds := 0;
              tzinfo := mkTimezoneInfo EmptyString 0 EmptyString EmptyString
                          EmptyString None |}.
    exists (inl e), (tick w). split; [exact E|]. cbn.
    repeat split. exists []. cbn. rewrite app_nil_r. split; [tauto|reflexivity].
Qed.

(** A body that is not truthy is answered with 400 and nothing else
    happens. *)
Lemma sendmsg_falsy (reqBody : JS.value) (w : World) :
  JS.truthy reqBody = false -> sendmsg host reqBody w = (inr badRequest, w).
Proof.
  intros H. unfold sendmsg, try_catch. rewrite H. reflexivity.
Qed.

(** The handler on a truthy body, when the configured zone is known. *)
Lemma sendmsg_truthy (reqBody : JS.value) (w : World) :
  JS.truthy reqBody = true ->
  valid_tz host (DEFAULT_TIMEZONE host) = true ->
  exists t resp w',
    sendmsg host reqBody w = (inr resp, w')
    /\ iso t = toISOString host (clock host (ticks w))
    /\ clients w' = clients w
    /\ sockets w' = sockets w
    /\ trace w' =
       (trace w
        ++ calls (sockets w)
             (JSON_stringify host (broadcastEnvelope reqBody t))
             (clients w))%list
    /\ (sends_return (sockets w) (clients w) = true ->
        exists t2, resp = sent (Z.of_nat (List.length (clients w))) t2)
    /\ (sends_return (sockets w) (clients w) = false -> resp = serverError).
Proof.
  intros Hb Hv.
  destruct (broadcastMessage_valid reqBody w Hv)
    as (t & w1 & _ & (Hc & Hs & Ht & _) & Hi & _ & E).
  destruct (forEach_deliver
              (JSON_stringify host (broadcastEnvelope reqBody t))
              (clients w) w1) as (r & E' & Hok & Hko).
  rewrite E' in E. clear E'. rewrite Hc, Hs, Ht in E. rewrite Hs in Hok, Hko.
  exists t. unfold sendmsg, try_catch. rewrite Hb. cbn [negb].
  unfold bind at 1. rewrite E.
  destruct (sends_return (sockets w) (clients w)) eqn:Hsr.
  - rewrite (Hok eq_refl).
    match goal with
    | |- context [bind (createTimestampNow host) ?k ?w2] =>
        destruct (TimestampFacts.createTimestampNow_valid host w2 Hv)
          as (t2 & w3 & E2 & (Hc2 & Hs2 & Ht2 & _) & _)
    end.
    unfold bind at 1. rewrite E2. unfold bind, Set_size, ret.
    eexists _, _. split; [reflexivity|]. cbn in *.
    rewrite Hc2, Hs2, Ht2. repeat split; auto.
    + intros _. exists t2. reflexivity.
    + discriminate.
  - destruct (Hko eq_refl) as (e & ->).
    eexists _, _. split; [reflexivity|]. cbn.
    repeat split; auto. discriminate.
Qed.

Lemma sendmsg_truthy_invalid (reqBody : JS.value) (w : World) :
  JS.truthy reqBody = true ->
  valid_tz host (DEFAULT_TIMEZONE host) = false ->
  sendmsg host reqBody w = (inr serverError, tick w).
Proof.
  intros Hb Hv. destruct (broadcastMessage_invalid reqBody w Hv) as (e & E).
  unfold sendmsg, try_catch. rewrite Hb. cbn [negb].
  unfold bind at 1. rewrite E. reflexivity.
Qed.

End WithHost.

End ServerFacts.

(** ** Start-up *)

Module StartupFacts.

Import TimeUtils Server StatusRoute.

(** The start-up callback returns exactly when the host knows the
    configured zone; with any other zone it raises the RangeError of
    [formatToLocal] before a single request is served. *)
Lemma listening_iff_known_zone (host : Host) (startTime : Z) (w : World) :
  (valid_tz host (DEFAULT_TIMEZONE host) = true ->
   exists w', onListening host startTime w = (inr tt, w')
              /\ only_clock_read w w')
  /\ (valid_tz host (DEFAULT_TIMEZONE host) = false ->
      onListening host startTime w
      = (inl (JS.RangeError ("Invalid time zone specified: "
                             ++ DEFAULT_TIMEZONE host)), w)).
Proof.
  split; intros Hv.
  - destruct (TimestampFacts.createTimestamp_valid host startTime
                (DEFAULT_TIMEZONE host) w Hv) as (t & w1 & E1 & F1 & _).
    destruct (TimestampFacts.getTimezoneInfo_returns host
                (StatusRoute.timezone host) w1) as (i & w2 & E2 & F2 & _).
    exists w2. split.
    + unfold onListening, bind at 1. rewrite E1.
      unfold bind. rewrite E2. reflexivity.
    + eapply TimestampFacts.only_clock_read_trans; eassumption.
  - unfold onListening, bind at 1.
    rewrite (TimestampFacts.createTimestamp_invalid host startTime
               (DEFAULT_TIMEZONE host) w Hv).
    reflexivity.
Qed.

(** A process whose start-up callback returned has a known zone. *)
Lemma serving_has_known_zone (host : Host) (startTime : Z) (w : World) :
  fst (onListening host startTime w) = inr tt ->
  valid_tz host (DEFAULT_TIMEZONE host) = true.
Proof.
  intros H.
  destruct (valid_tz host (DEFAULT_TIMEZONE host)) eqn:Hv; [reflexivity|].
  destruct (listening_iff_known_zone host startTime w) as [_ Hn].
  rewrite (Hn Hv) in H. discriminate H.
Qed.

End StartupFacts.

(** ** Facts shared by the statements on broadcast *)

Module BatchFacts.

Import TimeUtils Server.



Lemma calls_all_return (sk : conn -> Socket) (frame : string)
    (l : list conn) :
  sends_return sk l = true ->
  calls sk frame l
  = map (fun c => SendCall c frame true) (filter (isOpen sk) l).
Proof.
  intros H. unfold calls. rewrite ServerFacts.attempted_all_return by exact H.
  apply map_ext_in. intros c Hc. apply filter_In in Hc. destruct Hc as [Hin Ho].
  unfold sends_return in H. rewrite forallb_forall in H.
  specialize (H c Hin). rewrite Ho in H. cbn in H. rewrite H. reflexivity.
Qed.

Lemma calls_until_failure (sk : conn -> Socket) (frame : string)
    (pre post : list conn) (b : conn) :
  sends_return sk pre = true ->
  isOpen sk b = true -> isWritable sk b = false ->
  calls sk frame (pre ++ b :: post)
  = (map (fun c => SendCall c frame true) (filter (isOpen sk) pre)
     ++ [SendCall b frame false])%list.
Proof.
  intros Hpre Ho Hw. unfold calls.
  destruct (ServerFacts.attempted_until_failure sk pre post b Hpre Ho Hw)
    as [-> _].
  rewrite map_app. cbn. rewrite Hw. f_equal.
  pose proof (calls_all_return sk frame pre Hpre) as H.
  unfold calls in H.
  rewrite ServerFacts.attempted_all_return in H by exact Hpre.
  exact H.
Qed.

Lemma sent_status (n : Z) (t : Timestamp) :
  status (sent n t) = 200
  /\ JS.get "clientCount" (body (sent n t)) = JS.Number n.
Proof. split; reflexivity. Qed.

End BatchFacts.

(** C1. With a known configured zone, one broadcast takes one timestamp,
    the one [createTimestamp()] returns at the start of the call, whose
    iso and local time render the first clock reading; the envelope made
    of it has the type "broadcast", the message as data and the three
    time fields of that timestamp.  The calls of [send] of the
    broadcast are exactly those of the loop over the registry: one on
    each OPEN member in registry order, up to the first that raises,
    and each carries the serialization of that one envelope; when none
    raises, every OPEN member is sent it and the broadcast returns.
    The zone is known in every process that serves requests
    ([StartupFacts.serving_has_known_zone]). *)
Theorem C1_broadcast_one_envelope (host : Host) (message : JS.value)
    (w : World) :
  valid_tz host (TimeUtils.DEFAULT_TIMEZONE host) = true ->
  exists (t : TimeUtils.Timestamp) (w1 : World),
    TimeUtils.createTimestampNow host w = (inr t, w1)
    /\ TimeUtils.iso t = toISOString host (clock host (ticks w))
    /\ TimeUtils.local t
       = render host "zh-CN" NumericShortZone
           (TimeUtils.DEFAULT_TIMEZONE host) (clock host (ticks w))
    /\ let envelope := Server.broadcastEnvelope message t in
       let frame := JSON_stringify host envelope in
       let w' := snd (Server.broadcastMessage host message w) in
       JS.get "type" envelope = JS.Str "broadcast"
       /\ JS.get "data" envelope = message
       /\ JS.get "timestamp" envelope = JS.Str (TimeUtils.iso t)
       /\ JS.get "localTime" envelope = JS.Str (TimeUtils.local t)
       /\ JS.get "timezone" envelope
          = JS.Str (TimeUtils.timezone (TimeUtils.tzinfo t))
       /\ added w w' = calls (sockets w) frame (clients w)
       /\ (forall e, In e (added w w') ->
           exists c ok, e = SendCall c frame ok /\ In c (clients w)
                        /\ isOpen (sockets w) c = true)
       /\ (sends_return (sockets w) (clients w) = true ->
           fst (Server.broadcastMessage host message w) = inr tt
           /\ added w w'
              = map (fun c => SendCall c frame true)
                  (filter (isOpen (sockets w)) (clients w))).
Proof.
  intros Hv.
  destruct (ServerFacts.broadcastMessage_valid host message w Hv)
    as (t & w1 & Et & (Hc & Hs & Ht & _) & Hi & Hl & E).
  exists t, w1. split; [exact Et|]. split; [exact Hi|]. split; [exact Hl|].
  cbn zeta.
  destruct (ServerFacts.forEach_deliver
              (JSON_stringify host (Server.broadcastEnvelope message t))
              (clients w) w1) as (r & E' & Hok & _).
  rewrite E, E'. cbn [fst snd]. rewrite Hs in *.
  assert (Ea : added w
                 {| clients := clients w1; sockets := sockets w;
                    ticks := ticks w1;
                    trace := (trace w1
                              ++ calls (sockets w)
                                   (JSON_stringify host
                                      (Server.broadcastEnvelope message t))
                                   (clients w))%list |}
               = calls (sockets w)
                   (JSON_stringify host (Server.broadcastEnvelope message t))
                   (clients w)).
  { apply ServerFacts.added_app. cbn. rewrite Ht. reflexivity. }
  rewrite Ea.
  repeat (split; [reflexivity|]). split; [|intros Hsr; split].
  - intros e He. unfold calls in He. apply in_map_iff in He.
    destruct He as (c & <- & Hin).
    destruct (ServerFacts.attempted_open_members _ _ _ Hin) as [Hm Ho].
    exists c, (isWritable (sockets w) c). auto.
  - apply Hok. exact Hsr.
  - apply BatchFacts.calls_all_return. exact Hsr.
Qed.

Lemma C1_broadcast_one_envelope_witness :
  exists (t : TimeUtils.Timestamp) (w1 : World),
    TimeUtils.createTimestampNow Scenario.host Scenario.B_closed
    = (inr t, w1)
    /\ TimeUtils.iso t
       = toISOString Scenario.host
           (clock Scenario.host (ticks Scenario.B_closed))
    /\ TimeUtils.local t
       = render Scenario.host "zh-CN" NumericShortZone
           (TimeUtils.DEFAULT_TIMEZONE Scenario.host)
           (clock Scenario.host (ticks Scenario.B_closed))
    /\ let envelope := Server.broadcastEnvelope Scenario.hi t in
       let frame := JSON_stringify Scenario.host envelope in
       let w' := snd (Server.broadcastMessage Scenario.host Scenario.hi
                        Scenario.B_closed) in
       JS.get "type" envelope = JS.Str "broadcast"
       /\ JS.get "data" envelope = Scenario.hi
       /\ JS.get "timestamp" envelope = JS.Str (TimeUtils.iso t)
       /\ JS.get "localTime" envelope = JS.Str (TimeUtils.local t)
       /\ JS.get "timezone" envelope
          = JS.Str (TimeUtils.timezone (TimeUtils.tzinfo t))
       /\ added Scenario.B_closed w'
          = calls (sockets Scenario.B_closed) frame
              (clients Scenario.B_closed)
       /\ (forall e, In e (added Scenario.B_closed w') ->
           exists c ok, e = SendCall c frame ok
                        /\ In c (clients Scenario.B_closed)
                        /\ isOpen (sockets Scenario.B_closed) c = true)
       /\ (sends_return (sockets Scenario.B_closed)
             (clients Scenario.B_closed) = true ->
           fst (Server.broadcastMessage Scenario.host Scenario.hi
                  Scenario.B_closed) = inr tt
           /\ added Scenario.B_closed w'
              = map (fun c => SendCall c frame true)
                  (filter (isOpen (sockets Scenario.B_closed))
                     (clients Scenario.B_closed))).
Proof.
  apply (C1_broadcast_one_envelope Scenario.host Scenario.hi
           Scenario.B_closed).
  reflexivity.
Defined.

(** C2, as the claim has it, fails twice.  Not every submission is told
    a count: with A, B and C open and the write on B raising, the answer
    is the server error, which has no clientCount.  And the registry
    size is not the number of connections on which a send was
    attempted: with B closed the registry has three members and two
    calls of [send] are made. *)
Lemma C2_count_is_not_for_every_invocation :
  ~ (forall (host : Host) (reqBody : JS.value) (w : World),
       JS.truthy reqBody = true ->
       valid_tz host (TimeUtils.DEFAULT_TIMEZONE host) = true ->
       exists resp w',
         Server.sendmsg host reqBody w = (inr resp, w')
         /\ JS.get "clientCount" (Server.body resp)
            = JS.Number (Z.of_nat (List.length (clients w))))
  /\ ~ (forall (host : Host) (reqBody : JS.value) (w : World),
          JS.truthy reqBody = true ->
          valid_tz host (TimeUtils.DEFAULT_TIMEZONE host) = true ->
          List.length (added w (snd (Server.sendmsg host reqBody w)))
          = List.length (clients w)).
Proof.
  split; intros H.
  - destruct (H Scenario.host Scenario.hi Scenario.B_fails eq_refl eq_refl)
      as (resp & w' & E & Hcount).
    vm_compute in E. inversion E; subst. discriminate Hcount.
  - specialize (H Scenario.host Scenario.hi Scenario.B_closed eq_refl
                  eq_refl).
    vm_compute in H. discriminate H.
Qed.

(** C2, amended.  On a payload that passes the check, with a known
    configured zone, the handler returns and leaves the registry as it
    was.  When no OPEN member raises on [send], the answer is a success
    whose clientCount is the size of the registry, every member counted
    whatever its state, while the calls of [send] are as many as the
    OPEN members, at most that count.  When an OPEN member raises, the
    answer is the server error and no clientCount is told.  With an
    empty registry the answer is a success with count 0 and nothing is
    sent. *)
Theorem C2_count_is_registry_size_on_success (host : Host)
    (reqBody : JS.value) (w : World) :
  JS.truthy reqBody = true ->
  valid_tz host (TimeUtils.DEFAULT_TIMEZONE host) = true ->
  exists resp w',
    Server.sendmsg host reqBody w = (inr resp, w')
    /\ clients w' = clients w
    /\ (sends_return (sockets w) (clients w) = true ->
        Server.status resp = 200
        /\ JS.get "clientCount" (Server.body resp)
           = JS.Number (Z.of_nat (List.length (clients w)))
        /\ List.length (added w w')
           = List.length (filter (isOpen (sockets w)) (clients w))
        /\ (List.length (added w w') <= List.length (clients w))%nat)
    /\ (sends_return (sockets w) (clients w) = false ->
        resp = Server.serverError
        /\ JS.get "clientCount" (Server.body resp) = JS.Undefined)
    /\ (clients w = [] ->
        Server.status resp = 200
        /\ JS.get "clientCount" (Server.body resp) = JS.Number 0
        /\ added w w' = []).
Proof.
  intros Hb Hv.
  destruct (ServerFacts.sendmsg_truthy host reqBody w Hb Hv)
    as (t & resp & w' & E & _ & Hc & _ & Ht & Hok & Hko).
  exists resp, w'. split; [exact E|]. split; [exact Hc|].
  apply ServerFacts.added_app in Ht.
  split; [|split].
  - intros Hs. destruct (Hok Hs) as (t2 & ->).
    split; [reflexivity|]. split; [reflexivity|].
    rewrite Ht, BatchFacts.calls_all_return by exact Hs.
    rewrite length_map. split; [reflexivity|]. apply filter_length_le.
  - intros Hs. rewrite (Hko Hs). split; reflexivity.
  - intros Hnil. rewrite Hnil in *. cbn in Hok.
    destruct (Hok eq_refl) as (t2 & ->).
    split; [reflexivity|]. split; [reflexivity|]. exact Ht.
Qed.

Lemma C2_count_is_registry_size_on_success_witness :
  exists resp w',
    Server.sendmsg Scenario.host Scenario.hi Scenario.B_closed
    = (inr resp, w')
    /\ clients w' = clients Scenario.B_closed
    /\ (sends_return (sockets Scenario.B_closed)
          (clients Scenario.B_closed) = true ->
        Server.status resp = 200
        /\ JS.get "clientCount" (Server.body resp)
           = JS.Number (Z.of_nat (List.length (clients Scenario.B_closed)))
        /\ List.length (added Scenario.B_closed w')
           = List.length (filter (isOpen (sockets Scenario.B_closed))
                            (clients Scenario.B_closed))
        /\ (List.length (added Scenario.B_closed w')
            <= List.length (clients Scenario.B_closed))%nat)
    /\ (sends_return (sockets Scenario.B_closed)
          (clients Scenario.B_closed) = false ->
        resp = Server.serverError
        /\ JS.get "clientCount" (Server.body resp) = JS.Undefined)
    /\ (clients Scenario.B_closed = [] ->
        Server.status resp = 200
        /\ JS.get "clientCount" (Server.body resp) = JS.Number 0
        /\ added Scenario.B_closed w' = []).
Proof.
  apply (C2_count_is_registry_size_on_success Scenario.host Scenario.hi
           Scenario.B_closed); reflexivity.
Defined.

(** C3, as the claim has it, fails: with A, B and C open and the
    transport of B raising on a write, C is open and writable but [send]
    is never called on it, and the submitter is answered with the
    server error. *)
Lemma C3_write_error_aborts_the_batch :
  ~ (forall (host : Host) (reqBody : JS.value) (w : World) (c : conn),
       JS.truthy reqBody = true ->
       valid_tz host (TimeUtils.DEFAULT_TIMEZONE host) = true ->
       In c (clients w) ->
       isOpen (sockets w) c = true ->
       isWritable (sockets w) c = true ->
       (exists frame,
          In (SendCall c frame true)
             (added w (snd (Server.sendmsg host reqBody w))))
       /\ fst (Server.sendmsg host reqBody w) <> inr Server.serverError).
Proof.
  intros H.
  destruct (H Scenario.host Scenario.hi Scenario.B_fails Scenario.C)
    as [_ Hresp]; try reflexivity.
  - cbn. auto.
  - apply Hresp. reflexivity.
Qed.

(** C3, amended.  On a payload that passes the check, with a known
    configured zone: when no OPEN member raises on [send], members that
    are not OPEN are passed over, every OPEN member is sent the frame
    once, in registry order, and the response is a success; when an OPEN
    member raises, the members before it are served as above, the
    members after it get no call, and the response is the server
    error. *)
Theorem C3_batch_and_write_errors (host : Host) (reqBody : JS.value)
    (w : World) :
  JS.truthy reqBody = true ->
  valid_tz host (TimeUtils.DEFAULT_TIMEZONE host) = true ->
  exists t resp w',
    Server.sendmsg host reqBody w = (inr resp, w')
    /\ let frame :=
         JSON_stringify host (Server.broadcastEnvelope reqBody t) in
       (sends_return (sockets w) (clients w) = true ->
        Server.status resp = 200
        /\ added w w'
           = map (fun c => SendCall c frame true)
               (filter (isOpen (sockets w)) (clients w)))
       /\ (forall pre b post,
             clients w = (pre ++ b :: post)%list ->
             sends_return (sockets w) pre = true ->
             isOpen (sockets w) b = true ->
             isWritable (sockets w) b = false ->
             resp = Server.serverError
             /\ added w w'
                = (map (fun c => SendCall c frame true)
                     (filter (isOpen (sockets w)) pre)
                   ++ [SendCall b frame false])%list).
Proof.
  intros Hb Hv.
  destruct (ServerFacts.sendmsg_truthy host reqBody w Hb Hv)
    as (t & resp & w' & E & _ & _ & _ & Ht & Hok & Hko).
  exists t, resp, w'. split; [exact E|]. cbn zeta.
  apply ServerFacts.added_app in Ht. split.
  - intros Hs. destruct (Hok Hs) as (t2 & ->). split; [reflexivity|].
    rewrite Ht. apply BatchFacts.calls_all_return. exact Hs.
  - intros pre b post Hl Hpre Ho Hw.
    destruct (ServerFacts.attempted_until_failure (sockets w) pre post b
                Hpre Ho Hw) as [_ Hs].
    rewrite <- Hl in Hs. split; [exact (Hko Hs)|].
    rewrite Ht, Hl. apply BatchFacts.calls_until_failure; assumption.
Qed.

Lemma C3_batch_and_write_errors_witness :
  exists t resp w',
    Server.sendmsg Scenario.host Scenario.hi Scenario.B_closed
    = (inr resp, w')
    /\ let frame :=
         JSON_stringify Scenario.host
           (Server.broadcastEnvelope Scenario.hi t) in
       (sends_return (sockets Scenario.B_closed) (clients Scenario.B_closed)
        = true ->
        Server.status resp = 200
        /\ added Scenario.B_closed w'
           = map (fun c => SendCall c frame true)
               (filter (isOpen (sockets Scenario.B_closed))
                  (clients Scenario.B_closed)))
       /\ (forall pre b post,
             clients Scenario.B_closed = (pre ++ b :: post)%list ->
             sends_return (sockets Scenario.B_closed) pre = true ->
             isOpen (sockets Scenario.B_closed) b = true ->
             isWritable (sockets Scenario.B_closed) b = false ->
             resp = Server.serverError
             /\ added Scenario.B_closed w'
                = (map (fun c => SendCall c frame true)
                     (filter (isOpen (sockets Scenario.B_closed)) pre)
                   ++ [SendCall b frame false])%list).
Proof.
  apply (C3_batch_and_write_errors Scenario.host Scenario.hi
           Scenario.B_closed); reflexivity.
Defined.

(** C4, as the claim has it, fails: the empty object is an empty
    payload, yet it passes the check of the handler; it is broadcast to
    the open members A and C and the answer is a success. *)
Lemma C4_empty_object_is_broadcast :
  ~ (forall (host : Host) (reqBody : JS.value) (w : World),
       missing_or_empty reqBody = true ->
       fst (Server.sendmsg host reqBody w) = inr Server.badRequest
       /\ added w (snd (Server.sendmsg host reqBody w)) = []).
Proof.
  intros H.
  destruct (H Scenario.host (JS.Obj []) Scenario.B_closed eq_refl)
    as [Hresp _].
  vm_compute in Hresp. discriminate Hresp.
Qed.

(** C4, amended.  A body that is not truthy ([undefined], [null],
    [false], 0, the empty string) is answered with the 400 response, and
    the process state stays as it was: no broadcast, no call of
    [send]. *)
Theorem C4_falsy_body_rejected (host : Host) (reqBody : JS.value)
    (w : World) :
  JS.truthy reqBody = false ->
  Server.sendmsg host reqBody w = (inr Server.badRequest, w)
  /\ Server.status Server.badRequest = 400
  /\ added w (snd (Server.sendmsg host reqBody w)) = [].
Proof.
  intros H. rewrite (ServerFacts.sendmsg_falsy host reqBody w H).
  split; [reflexivity|]. split; [reflexivity|].
  apply ServerFacts.added_app. cbn. symmetry. apply app_nil_r.
Qed.

Lemma C4_falsy_body_rejected_witness :
  Server.sendmsg Scenario.host JS.Undefined Scenario.B_closed
  = (inr Server.badRequest, Scenario.B_closed)
  /\ Server.status Server.badRequest = 400
  /\ added Scenario.B_closed
       (snd (Server.sendmsg Scenario.host JS.Undefined Scenario.B_closed))
     = [].
Proof.
  apply (C4_falsy_body_rejected Scenario.host JS.Undefined Scenario.B_closed).
  reflexivity.
Defined.


(** ** The handlers of one connection *)

Module LifecycleFacts.

Import Server.

Lemma ws_send_spec (c : conn) (frame : string) (w : World) :
  ws_send c frame w
  = (if isWritable (sockets w) c then inr tt else inl (JS.SendError c),
     record (SendCall c frame (isWritable (sockets w) c)) w).
Proof.
  unfold ws_send, isWritable. destruct (writable (sockets w c)); reflexivity.
Qed.

Lemma onMessage_clients (host : Host) (c : conn) (text : string)
    (w : World) :
  clients (snd (onMessage host c text w)) = clients w.
Proof.
  unfold onMessage. destruct (String.eqb text "ping").
  - rewrite ws_send_spec. reflexivity.
  - destruct ((String.length text <? 100)%nat && negb (startsWith "{" text)
              && negb (startsWith "[" text)); [reflexivity|].
    unfold try_catch. destruct (JSON_parse host text); reflexivity.
Qed.

Lemma handle_trigger (host : Host) (c : conn) (ev : Event) (w : World) :
  isTrigger ev = true ->
  handle host c ev w = (inr tt, set_clients (without c (clients w)) w).
Proof.
  destruct ev; cbn; intros H; try discriminate H; reflexivity.
Qed.

Lemma handle_message (host : Host) (c : conn) (ev : Event) (w : World) :
  isTrigger ev = false -> clients (snd (handle host c ev w)) = clients w.
Proof.
  destruct ev; cbn [isTrigger]; intros H; try discriminate H.
  apply onMessage_clients.
Qed.

(** Once [c] is out of the registry, none of its handlers changes the
    registry. *)
Lemma handle_absent (host : Host) (c : conn) (ev : Event) (w : World) :
  ~ In c (clients w) -> clients (snd (handle host c ev w)) = clients w.
Proof.
  intros H. destruct (isTrigger ev) eqn:Ht.
  - rewrite handle_trigger by exact Ht. cbn.
    apply RegistryFacts.without_absent. exact H.
  - apply handle_message. exact Ht.
Qed.

Lemma handleAll_absent (host : Host) (c : conn) (evs : list Event)
    (w : World) :
  ~ In c (clients w) -> clients (handleAll host c evs w) = clients w.
Proof.
  revert w. induction evs as [|ev evs IH]; intros w H; [reflexivity|].
  cbn. unfold handleAll in IH. rewrite IH.
  - apply handle_absent. exact H.
  - rewrite handle_absent by exact H. exact H.
Qed.

Lemma handleAll_messages (host : Host) (c : conn) (evs : list Event)
    (w : World) :
  forallb (fun ev => negb (isTrigger ev)) evs = true ->
  clients (handleAll host c evs w) = clients w.
Proof.
  revert w. induction evs as [|ev evs IH]; intros w H; [reflexivity|].
  cbn in H. apply andb_true_iff in H. destruct H as [Hev Hrest].
  apply negb_true_iff in Hev.
  cbn. unfold handleAll in IH. rewrite IH by exact Hrest.
  apply handle_message. exact Hev.
Qed.

End LifecycleFacts.

(** C9. On the frame "ping" the message handler calls [send] once, on
    that connection, with "pong", and does nothing else: the registry,
    the sockets and the number of clock readings stay as they were and
    no other call of [send] is made.  The call returns when the
    transport takes the write. *)
Theorem C9_ping_answered_by_one_pong (host : Host) (c : conn) (w : World) :
  let w' := snd (Server.onMessage host c "ping" w) in
  clients w' = clients w
  /\ sockets w' = sockets w
  /\ ticks w' = ticks w
  /\ added w w' = [SendCall c "pong" (isWritable (sockets w) c)]
  /\ (isWritable (sockets w) c = true ->
      Server.onMessage host c "ping" w
      = (inr tt, record (SendCall c "pong" true) w)).
Proof.
  cbn zeta.
  assert (E : Server.onMessage host c "ping" w = Server.ws_send c "pong" w)
    by reflexivity.
  rewrite E, LifecycleFacts.ws_send_spec. cbn [snd].
  repeat split.
  - apply ServerFacts.added_app. reflexivity.
  - intros H. rewrite H. reflexivity.
Qed.

(** ** Concrete runs *)

Module Runs.

Import TimeUtils Server Scenario.

Example padStart_one_digit : JS.padStart 2 "0" "5" = "05".
Proof. reflexivity. Qed.

Example replaceFirst_once :
  JS.replaceFirst "T" " " "2024-01-01T12:00:00" = "2024-01-01 12:00:00".
Proof. reflexivity. Qed.

Example offset_east : formatTimezoneOffset 330 = "+05:30".
Proof. reflexivity. Qed.

Example offset_west : formatTimezoneOffset (-480) = "-08:00".
Proof. reflexivity. Qed.

Example uptime_texts :
  let u := calculateUptime 0 7265432 in
  formatted_en u = "0d 2h 1m 5s"
  /\ human_readable u = "2小时 1分钟 5秒".
Proof. split; reflexivity. Qed.

(** An end before the start: the quotients round down and the
    remainders keep the sign, so every field is -1 for one second. *)
Example uptime_of_negative_delta :
  let u := calculateUptime 1000 0 in
  (days u, hours u, minutes u, seconds u) = (-1, -1, -1, -1).
Proof. reflexivity. Qed.

Example default_zone : DEFAULT_TIMEZONE host = "Asia/Shanghai".
Proof. reflexivity. Qed.

(** No connection: success, count 0, nothing sent. *)
Example submit_to_nobody :
  let (r, w') := sendmsg host x1 nobody in
  (match r with
   | inr resp => (status resp, JS.get "clientCount" (body resp))
   | inl _ => (0, JS.Undefined)
   end, trace w') = ((200, JS.Number 0), []).
Proof. vm_compute. reflexivity. Qed.

(** A, B, C registered, B closed: count 3, A and C get the frame. *)
Example submit_with_B_closed :
  let (r, w') := sendmsg host hi B_closed in
  (match r with
   | inr resp => (status resp, JS.get "clientCount" (body resp))
   | inl _ => (0, JS.Undefined)
   end,
   map (fun e => match e with SendCall c _ ok => (c, ok) end) (trace w'))
  = ((200, JS.Number 3), [(A, true); (C, true)]).
Proof. vm_compute. reflexivity. Qed.

(** A, B, C open, the write on B raises: 500, and C gets nothing. *)
Example submit_with_B_failing :
  let (r, w') := sendmsg host hi B_fails in
  (r, map (fun e => match e with SendCall c _ ok => (c, ok) end) (trace w'))
  = (inr serverError, [(A, true); (B, false)]).
Proof. vm_compute. reflexivity. Qed.

(** Connect, welcome, ping, pong, close: the registry is empty again. *)
Example connect_ping_close :
  let (r, w1) := onConnection host A nobody in
  let w2 := handleAll host A [Message "ping"; Close] w1 in
  (r, clients w1, clients w2,
   map (fun e => match e with SendCall c _ ok => (c, ok) end) (trace w2),
   nth 1 (trace w2) (SendCall A EmptyString false))
  = (inr tt, [A], [], [(A, true); (A, true)], SendCall A "pong" true).
Proof. vm_compute. reflexivity. Qed.

End Runs.

(** ** Further properties of the uptime *)

Module UptimeMore.

Import TimeUtils.

(** The fields of an uptime as quotients and remainders of the delta as
    a double, whatever its sign. *)
Lemma fields_unfolded (s e : Z) :
  let d := JS.toDouble (e - s) in
  let u := calculateUptime s e in
  total_milliseconds u = d
  /\ total_seconds u = d / 1000
  /\ days u = d / 86400000
  /\ hours u = Z.rem d 86400000 / 3600000
  /\ minutes u = Z.rem d 3600000 / 60000
  /\ seconds u = Z.rem d 60000 / 1000.
Proof. cbn zeta. repeat split; reflexivity. Qed.

(** The units the readable uptime starts from are those of the exact
    delta: rounding does not take a delta across a threshold. *)
Lemma unitsDropped_toDouble (x : Z) :
  0 <= x -> unitsDropped (JS.toDouble x) = unitsDropped x.
Proof.
  intros H.
  destruct (Z_le_gt_dec x 9007199254740992) as [Hs|Hl].
  - rewrite DoubleFacts.toDouble_exact by lia. reflexivity.
  - pose proof (DoubleFacts.toDouble_large x ltac:(lia)) as Hd.
    unfold unitsDropped.
    destruct (Z.leb_spec 86400000 (JS.toDouble x)); [|lia].
    destruct (Z.leb_spec 86400000 x); [reflexivity|lia].
Qed.

End UptimeMore.

(** X1. For a delta that is not negative the fields of an uptime are in
    their clock ranges (hours below 24, minutes and seconds below 60,
    nothing negative) and agree with total_seconds: days, hours,
    minutes and seconds, weighed in seconds, add up to it. *)
Theorem X1_uptime_fields_agree (startTime endTime : Z) :
  0 <= endTime - startTime ->
  let u := TimeUtils.calculateUptime startTime endTime in
  0 <= TimeUtils.days u
  /\ 0 <= TimeUtils.hours u < 24
  /\ 0 <= TimeUtils.minutes u < 60
  /\ 0 <= TimeUtils.seconds u < 60
  /\ TimeUtils.total_seconds u
     = TimeUtils.days u * 86400 + TimeUtils.hours u * 3600
       + TimeUtils.minutes u * 60 + TimeUtils.seconds u.
Proof.
  intros H.
  destruct (UptimeFacts.fields_of_delta startTime endTime H)
    as (H0 & _ & Hts & Hd & Hh & Hm & Hs & _).
  cbn zeta in *. rewrite Hts, Hd, Hh, Hm, Hs.
  Z.div_mod_to_equations. lia.
Qed.

Lemma X1_uptime_fields_agree_witness :
  let u := TimeUtils.calculateUptime 1000 90061000 in
  0 <= TimeUtils.days u
  /\ 0 <= TimeUtils.hours u < 24
  /\ 0 <= TimeUtils.minutes u < 60
  /\ 0 <= TimeUtils.seconds u < 60
  /\ TimeUtils.total_seconds u
     = TimeUtils.days u * 86400 + TimeUtils.hours u * 3600
       + TimeUtils.minutes u * 60 + TimeUtils.seconds u.
Proof.
  apply (X1_uptime_fields_agree 1000 90061000). lia.
Defined.

(** X2. For two instants a Date can hold, the end before the start,
    nothing is clamped:
    total_milliseconds is the negative delta as a double (the exact
    delta when that is at most 2^53 ms in size), days is negative,
    hours, minutes and seconds are zero or negative, and unless
    total_milliseconds is a whole number of days the weighed fields
    fall short of it by a day or more. *)
Theorem X2_uptime_of_negative_delta (startTime endTime : Z) :
  validTime startTime -> validTime endTime ->
  endTime - startTime < 0 ->
  let u := TimeUtils.calculateUptime startTime endTime in
  TimeUtils.total_milliseconds u = JS.toDouble (endTime - startTime)
  /\ TimeUtils.total_milliseconds u < 0
  /\ (-9007199254740992 <= endTime - startTime ->
      TimeUtils.total_milliseconds u = endTime - startTime)
  /\ TimeUtils.days u < 0
  /\ -24 <= TimeUtils.hours u <= 0
  /\ -60 <= TimeUtils.minutes u <= 0
  /\ -60 <= TimeUtils.seconds u <= 0
  /\ (TimeUtils.total_milliseconds u mod 86400000 <> 0 ->
      wholeSeconds u <= TimeUtils.total_milliseconds u - 86400000).
Proof.
  intros _ _ H.
  destruct (UptimeMore.fields_unfolded startTime endTime)
    as (Ht & _ & Hd & Hh & Hm & Hs).
  pose proof (DoubleFacts.toDouble_neg _ H) as Hneg.
  cbn zeta in *. unfold wholeSeconds. rewrite Ht, Hd, Hh, Hm, Hs.
  split; [reflexivity|]. split; [exact Hneg|].
  split; [intros Hb; apply DoubleFacts.toDouble_exact; lia|].
  generalize dependent (JS.toDouble (endTime - startTime)). intros d _ Hneg.
  Z.to_euclidean_division_equations. lia.
Qed.

Lemma X2_uptime_of_negative_delta_witness :
  let u := TimeUtils.calculateUptime 1000 0 in
  TimeUtils.total_milliseconds u = JS.toDouble (0 - 1000)
  /\ TimeUtils.total_milliseconds u < 0
  /\ (-9007199254740992 <= 0 - 1000 ->
      TimeUtils.total_milliseconds u = 0 - 1000)
  /\ TimeUtils.days u < 0
  /\ -24 <= TimeUtils.hours u <= 0
  /\ -60 <= TimeUtils.minutes u <= 0
  /\ -60 <= TimeUtils.seconds u <= 0
  /\ (TimeUtils.total_milliseconds u mod 86400000 <> 0 ->
      wholeSeconds u <= TimeUtils.total_milliseconds u - 86400000).
Proof.
  apply (X2_uptime_of_negative_delta 1000 0); unfold validTime; lia.
Defined.

(** X3. For a delta that is not negative, the readable uptime lists
    days, hours, minutes and seconds, in this order and separated by
    one space, from the first unit the delta reaches: all four from one
    day on, the seconds alone below one minute.  A zero after the first
    unit shown is kept. *)
Theorem X3_readable_uptime_units (startTime endTime : Z) :
  0 <= endTime - startTime ->
  let u := TimeUtils.calculateUptime startTime endTime in
  TimeUtils.human_readable u
  = TimeUtils.join " "
      (skipn (unitsDropped (endTime - startTime))
         [ JS.numToString (TimeUtils.days u) ++ "天";
           JS.numToString (TimeUtils.hours u) ++ "小时";
           JS.numToString (TimeUtils.minutes u) ++ "分钟";
           JS.numToString (TimeUtils.seconds u) ++ "秒" ]).
Proof.
  intros H.
    destruct (UptimeFacts.fields_of_delta startTime endTime H)
    as (H0 & _ & _ & Hd & Hh & Hm & _ & _).
  cbn zeta in *.
  assert (E : unitsDropped (endTime - startTime)
              = leadingZeroUnits
                  (TimeUtils.days (TimeUtils.calculateUptime startTime endTime))
                  (TimeUtils.hours (TimeUtils.calculateUptime startTime endTime))
                  (TimeUtils.minutes
                     (TimeUtils.calculateUptime startTime endTime))).
    { rewrite <- (UptimeMore.unitsDropped_toDouble _ H).
    rewrite Hd, Hh, Hm. unfold unitsDropped, leadingZeroUnits.
    repeat match goal with
           | |- context [(?a <=? ?b)%Z] => destruct (Z.leb_spec a b)
           | |- context [(?a <? ?b)%Z] => destruct (Z.ltb_spec a b)
           end;
      try reflexivity; exfalso; Z.div_mod_to_equations; lia. }
  rewrite E. clear E Hd Hh Hm.
  change (TimeUtils.human_readable
            (TimeUtils.calculateUptime startTime endTime))
    with (TimeUtils.formatHumanReadableUptime
            (TimeUtils.days (TimeUtils.calculateUptime startTime endTime))
            (TimeUtils.hours (TimeUtils.calculateUptime startTime endTime))
            (TimeUtils.minutes (TimeUtils.calculateUptime startTime endTime))
            (TimeUtils.seconds (TimeUtils.calculateUptime startTime endTime))).
  generalize (TimeUtils.days (TimeUtils.calculateUptime startTime endTime))
             (TimeUtils.hours (TimeUtils.calculateUptime startTime endTime))
             (TimeUtils.minutes (TimeUtils.calculateUptime startTime endTime))
             (TimeUtils.seconds (TimeUtils.calculateUptime startTime endTime)).
  intros d h m s.
  unfold TimeUtils.formatHumanReadableUptime, leadingZeroUnits,
    TimeUtils.push.
  destruct (0 <? d)%Z; destruct (0 <? h)%Z; destruct (0 <? m)%Z; reflexivity.
Qed.

Lemma X3_readable_uptime_units_witness :
  TimeUtils.human_readable (TimeUtils.calculateUptime 0 3605000)
  = TimeUtils.join " "
      (skipn (unitsDropped (3605000 - 0))
         [ JS.numToString
             (TimeUtils.days (TimeUtils.calculateUptime 0 3605000)) ++ "天";
           JS.numToString
             (TimeUtils.hours (TimeUtils.calculateUptime 0 3605000)) ++ "小时";
           JS.numToString
             (TimeUtils.minutes (TimeUtils.calculateUptime 0 3605000))
             ++ "分钟";
           JS.numToString
             (TimeUtils.seconds (TimeUtils.calculateUptime 0 3605000))
             ++ "秒" ]).
Proof.
  apply (X3_readable_uptime_units 0 3605000). lia.
Defined.

(** ** Further properties of the zone functions *)

Module ZoneFacts.

Import TimeUtils.

Lemma pads_below_hundred :
  forallb padsToTwoDigits (seq 0 100) = true.
Proof. vm_compute. reflexivity. Qed.

(** The two characters a number below one hundred is padded to. *)
Lemma padStart_two_digits (k : Z) :
  0 <= k < 100 ->
  exists a b,
    JS.padStart 2 "0" (JS.numToString k) = String a (String b EmptyString)
    /\ isDigit a = true /\ isDigit b = true /\ twoDigits a b = k.
Proof.
  intros Hk.
  pose proof pads_below_hundred as H. rewrite forallb_forall in H.
  specialize (H (Z.to_nat k)).
  assert (Hin : In (Z.to_nat k) (seq 0 100)) by (apply in_seq; lia).
  specialize (H Hin). unfold padsToTwoDigits in H.
  rewrite Z2Nat.id in H by lia.
  destruct (JS.padStart 2 "0" (JS.numToString k)) as [|a [|b [|c r]]];
    try discriminate H.
  apply andb_true_iff in H. destruct H as [H H3].
  apply andb_true_iff in H. destruct H as [H1 H2].
  apply Z.eqb_eq in H3. exists a, b. auto.
Qed.

End ZoneFacts.

(** X4. For an offset of less than 100 hours either way, the text of
    [formatTimezoneOffset] is a sign, two digits, a colon and two
    digits; the sign is + from zero on and - below; the first pair of
    digits writes the hours and the second the minutes of the absolute
    offset, so the text tells the offset. *)
Theorem X4_offset_text_shape (offsetMinutes : Z) :
  -6000 < offsetMinutes < 6000 ->
  exists a b c d,
    TimeUtils.formatTimezoneOffset offsetMinutes
    = String (if (0 <=? offsetMinutes)%Z then "+"%char else "-"%char)
        (String a (String b (String ":"%char
           (String c (String d EmptyString)))))
    /\ isDigit a = true /\ isDigit b = true
    /\ isDigit c = true /\ isDigit d = true
    /\ twoDigits c d < 60
    /\ 60 * twoDigits a b + twoDigits c d = Z.abs offsetMinutes.
Proof.
  intros H. unfold TimeUtils.formatTimezoneOffset, JS.floorDiv, JS.remainder.
  assert (Hh : 0 <= Z.abs offsetMinutes / 60 < 100)
    by (Z.div_mod_to_equations; lia).
  assert (Hr : Z.rem (Z.abs offsetMinutes) 60 = Z.abs offsetMinutes mod 60)
    by (apply Z.rem_mod_nonneg; lia).
  assert (Hm : 0 <= Z.abs offsetMinutes mod 60 < 100)
    by (Z.div_mod_to_equations; lia).
  rewrite Hr.
  destruct (ZoneFacts.padStart_two_digits _ Hh) as (a & b & Ea & Da & Db & Va).
  destruct (ZoneFacts.padStart_two_digits _ Hm) as (c & d & Ec & Dc & Dd & Vc).
  rewrite Ea, Ec. exists a, b, c, d.
  split; [destruct (0 <=? offsetMinutes)%Z; reflexivity|].
  repeat split; try assumption.
  - rewrite Vc. Z.div_mod_to_equations; lia.
  - rewrite Va, Vc. Z.div_mod_to_equations; lia.
Qed.

Lemma X4_offset_text_shape_witness :
  exists a b c d,
    TimeUtils.formatTimezoneOffset (-570)
    = String (if (0 <=? -570)%Z then "+"%char else "-"%char)
        (String a (String b (String ":"%char
           (String c (String d EmptyString)))))
    /\ isDigit a = true /\ isDigit b = true
    /\ isDigit c = true /\ isDigit d = true
    /\ twoDigits c d < 60
    /\ 60 * twoDigits a b + twoDigits c d = Z.abs (-570).
Proof.
  apply (X4_offset_text_shape (-570)). lia.
Defined.

Module ZoneMore.

Import TimeUtils.

Section WithHost.

Variable host : Host.

(** [getTimezoneOffset] on a known zone, when UTC is known. *)
Lemma getTimezoneOffset_valid (tz : string) (w : World) :
  valid_tz host "UTC" = true ->
  valid_tz host tz = true ->
  let now := clock host (ticks w) in
  getTimezoneOffset host tz w
  = (inr ((Date_parse host (render host "en-US" TimeZoneOnly tz now)
           - Date_parse host (render host "en-US" TimeZoneOnly "UTC" now))
          / (1000 * 60)),
     tick w).
Proof.
  intros Hu Hv. cbn zeta.
  unfold getTimezoneOffset, bind, newDate, toLocaleString, ret.
  rewrite Hu, Hv. reflexivity.
Qed.

(** [getTimezoneInfo] on a known zone, when UTC is known: the regular
    record. *)
Lemma getTimezoneInfo_valid (tz : string) (w : World) :
  valid_tz host "UTC" = true ->
  valid_tz host tz = true ->
  exists o,
    getTimezoneInfo host tz w
    = (inr {| timezone := tz;
              offset := o (S (S (ticks w)));
              offsetString := formatTimezoneOffset (o (S (S (S (ticks w)))));
              localTime :=
                render host "zh-CN" NumericShortZone tz (clock host (ticks w));
              utcTime := toISOString host (clock host (ticks w));
              error := None |},
       tick (tick (tick (tick w))))
    /\ forall k,
         o k = (Date_parse host
                  (render host "en-US" TimeZoneOnly tz (clock host k))
                - Date_parse host
                    (render host "en-US" TimeZoneOnly "UTC" (clock host k)))
               / (1000 * 60).
Proof.
  intros Hu Hv. eexists (fun k => _). split; [|intros k; reflexivity].
  unfold getTimezoneInfo, bind at 1, newDate, try_catch.
  unfold bind at 1.
  rewrite (getTimezoneOffset_valid tz (tick w) Hu Hv).
  unfold bind at 1.
  rewrite (getTimezoneOffset_valid tz (tick (tick w)) Hu Hv).
  unfold bind at 1.
  rewrite (getTimezoneOffset_valid tz (tick (tick (tick w))) Hu Hv).
  unfold bind, formatToLocal, toLocaleString, ret. rewrite Hv.
  reflexivity.
Qed.

End WithHost.

End ZoneMore.

(** X5. When the host knows UTC, the offset [getTimezoneOffset] finds
    for the label UTC is 0 whatever the host renders, and
    [getTimezoneInfo] on UTC gives the zone UTC, offset 0, the text
    +00:00 and no error: what the fallback record holds for these three
    fields. *)
Theorem X5_utc_offset_is_zero (host : Host) (w : World) :
  valid_tz host "UTC" = true ->
  TimeUtils.getTimezoneOffset host "UTC" w = (inr 0, tick w)
  /\ fst (TimeUtils.getTimezoneInfo host "UTC" w)
     = inr {| TimeUtils.timezone := "UTC";
              TimeUtils.offset := 0;
              TimeUtils.offsetString := "+00:00";
              TimeUtils.localTime :=
                render host "zh-CN" NumericShortZone "UTC"
                  (clock host (ticks w));
              TimeUtils.utcTime := toISOString host (clock host (ticks w));
              TimeUtils.error := None |}.
Proof.
  intros Hu. split.
  - rewrite (ZoneMore.getTimezoneOffset_valid host "UTC" w Hu Hu).
    cbn zeta. rewrite Z.sub_diag. reflexivity.
  - destruct (ZoneMore.getTimezoneInfo_valid host "UTC" w Hu Hu)
      as (o & E & Ho).
    rewrite E. cbn [fst]. rewrite !Ho, !Z.sub_diag. reflexivity.
Qed.

Lemma X5_utc_offset_is_zero_witness :
  TimeUtils.getTimezoneOffset Scenario.host "UTC" Scenario.nobody
  = (inr 0, tick Scenario.nobody)
  /\ fst (TimeUtils.getTimezoneInfo Scenario.host "UTC" Scenario.nobody)
     = inr {| TimeUtils.timezone := "UTC";
              TimeUtils.offset := 0;
              TimeUtils.offsetString := "+00:00";
              TimeUtils.localTime :=
                render Scenario.host "zh-CN" NumericShortZone "UTC"
                  (clock Scenario.host (ticks Scenario.nobody));
              TimeUtils.utcTime :=
                toISOString Scenario.host
                  (clock Scenario.host (ticks Scenario.nobody));
              TimeUtils.error := None |}.
Proof.
  apply (X5_utc_offset_is_zero Scenario.host Scenario.nobody). reflexivity.
Defined.

(** X6. When the host knows UTC, [getTimezoneInfo] returns on every
    label and touches nothing but the clock; its record has no error
    field and names the label exactly when the label is a known zone;
    on any other label it is the UTC record (offset 0, +00:00, both
    times in ISO form) with the error text naming the label. *)
Theorem X6_timezone_info_error_iff_unknown (host : Host) (tz : string)
    (w : World) :
  valid_tz host "UTC" = true ->
  exists i w',
    TimeUtils.getTimezoneInfo host tz w = (inr i, w')
    /\ only_clock_read w w'
    /\ (TimeUtils.error i = None <-> valid_tz host tz = true)
    /\ TimeUtils.utcTime i = toISOString host (clock host (ticks w))
    /\ (valid_tz host tz = true -> TimeUtils.timezone i = tz)
    /\ (valid_tz host tz = false ->
        i = {| TimeUtils.timezone := "UTC";
               TimeUtils.offset := 0;
               TimeUtils.offsetString := "+00:00";
               TimeUtils.localTime := toISOString host (clock host (ticks w));
               TimeUtils.utcTime := toISOString host (clock host (ticks w));
               TimeUtils.error := Some ("Invalid timezone: " ++ tz) |}).
Proof.
  intros Hu. destruct (valid_tz host tz) eqn:Hv.
  - destruct (ZoneMore.getTimezoneInfo_valid host tz w Hu Hv) as (o & E & _).
    eexists _, _. split; [exact E|]. cbn.
    split; [unfold only_clock_read; cbn; repeat split; lia|].
    repeat split; auto. discriminate.
  - pose proof (TimestampFacts.getTimezoneInfo_invalid host tz w Hv) as E.
    cbn zeta in E. eexists _, _. split; [exact E|]. cbn.
    split; [unfold only_clock_read; cbn; repeat split; lia|].
    repeat split; auto; discriminate.
Qed.

Lemma X6_timezone_info_error_iff_unknown_witness :
  exists i w',
    TimeUtils.getTimezoneInfo Scenario.host "Mars/Olympus" Scenario.nobody
    = (inr i, w')
    /\ only_clock_read Scenario.nobody w'
    /\ (TimeUtils.error i = None
        <-> valid_tz Scenario.host "Mars/Olympus" = true)
    /\ TimeUtils.utcTime i
       = toISOString Scenario.host
           (clock Scenario.host (ticks Scenario.nobody))
    /\ (valid_tz Scenario.host "Mars/Olympus" = true ->
        TimeUtils.timezone i = "Mars/Olympus")
    /\ (valid_tz Scenario.host "Mars/Olympus" = false ->
        i = {| TimeUtils.timezone := "UTC";
               TimeUtils.offset := 0;
               TimeUtils.offsetString := "+00:00";
               TimeUtils.localTime :=
                 toISOString Scenario.host
                   (clock Scenario.host (ticks Scenario.nobody));
               TimeUtils.utcTime :=
                 toISOString Scenario.host
                   (clock Scenario.host (ticks Scenario.nobody));
               TimeUtils.error := Some ("Invalid timezone: " ++ "Mars/Olympus")
            |}).
Proof.
  apply (X6_timezone_info_error_iff_unknown Scenario.host "Mars/Olympus"
           Scenario.nobody).
  reflexivity.
Defined.

(** X7. When the host knows UTC, [createTimestamp] has three outcomes.
    On an Invalid Date it raises the RangeError of [toISOString],
    whatever the zone, and leaves the state alone.  On a valid Date and
    a known zone it returns, touching nothing but the clock, a snapshot
    of that date: iso and milliseconds are the date, unix is its whole
    seconds, and the zone record names the zone and has no error.  On a
    valid Date and any other label it raises the RangeError of the
    first rendering and leaves the state alone.  So no snapshot that
    [createTimestamp] returns carries the error field. *)
Theorem X7_createTimestamp_outcomes (host : Host) (date : TimeUtils.Date)
    (tz : string) (w : World) :
  valid_tz host "UTC" = true ->
  match date with
  | TimeUtils.InvalidDate =>
      TimeUtils.createTimestampOf host date tz w
      = (inl (JS.RangeError "Invalid time value"), w)
  | TimeUtils.Instant ms =>
      match TimeUtils.createTimestampOf host date tz w with
      | (inr t, w') =>
          valid_tz host tz = true
          /\ only_clock_read w w'
          /\ TimeUtils.iso t = toISOString host ms
          /\ TimeUtils.milliseconds t = ms
          /\ TimeUtils.unix t * 1000 <= ms < TimeUtils.unix t * 1000 + 1000
          /\ TimeUtils.timezone (TimeUtils.tzinfo t) = tz
          /\ TimeUtils.error (TimeUtils.tzinfo t) = None
      | (inl e, w') =>
          valid_tz host tz = false
          /\ w' = w
          /\ e = JS.RangeError ("Invalid time zone specified: " ++ tz)
      end
  end.
Proof.
  intros Hu. destruct date as [ms|]; [|reflexivity].
  change (TimeUtils.createTimestampOf host (TimeUtils.Instant ms) tz w)
    with (TimeUtils.createTimestamp host ms tz w).
  destruct (valid_tz host tz) eqn:Hv.
  - destruct (ZoneMore.getTimezoneInfo_valid host tz w Hu Hv) as (o & E & _).
    unfold TimeUtils.createTimestamp, bind, TimeUtils.formatToLocal,
      TimeUtils.formatCompact, TimeUtils.toLocaleString, ret.
    rewrite Hv. unfold bind, ret. rewrite E. cbn.
    split; [reflexivity|].
    split; [unfold only_clock_read; cbn; repeat split; lia|].
    repeat split; unfold JS.floorDiv; Z.div_mod_to_equations; lia.
  - rewrite (TimestampFacts.createTimestamp_invalid host ms tz w Hv).
    repeat split.
Qed.

Lemma X7_createTimestamp_outcomes_witness :
  match TimeUtils.createTimestampOf Scenario.host
          (TimeUtils.Instant 1700000000123) "Asia/Tokyo"
          Scenario.nobody with
  | (inr t, w') =>
      valid_tz Scenario.host "Asia/Tokyo" = true
      /\ only_clock_read Scenario.nobody w'
      /\ TimeUtils.iso t = toISOString Scenario.host 1700000000123
      /\ TimeUtils.milliseconds t = 1700000000123
      /\ TimeUtils.unix t * 1000 <= 1700000000123
         < TimeUtils.unix t * 1000 + 1000
      /\ TimeUtils.timezone (TimeUtils.tzinfo t) = "Asia/Tokyo"
      /\ TimeUtils.error (TimeUtils.tzinfo t) = None
  | (inl e, w') =>
      valid_tz Scenario.host "Asia/Tokyo" = false
      /\ w' = Scenario.nobody
      /\ e = JS.RangeError ("Invalid time zone specified: " ++ "Asia/Tokyo")
  end.
Proof.
  apply (X7_createTimestamp_outcomes Scenario.host
           (TimeUtils.Instant 1700000000123) "Asia/Tokyo" Scenario.nobody).
  reflexivity.
Defined.

(** X8. [isValidTimezone] returns on every label and changes nothing, and
    it answers true exactly on the labels on which [createTimestamp]
    returns a snapshot of a valid Date: with a valid Date, a label it
    accepts never makes [createTimestamp] raise and a label it refuses
    always does.  On an Invalid Date [createTimestamp] raises whatever
    [isValidTimezone] answers. *)
Theorem X8_isValidTimezone_foretells_createTimestamp (host : Host)
    (tz : string) (w : World) :
  exists b,
    TimeUtils.isValidTimezone host tz w = (inr b, w)
    /\ (forall ms,
          (b = true <->
           exists t w',
             TimeUtils.createTimestampOf host (TimeUtils.Instant ms) tz w
             = (inr t, w'))
          /\ (b = false <->
              exists e,
                TimeUtils.createTimestampOf host (TimeUtils.Instant ms) tz w
                = (inl e, w)))
    /\ TimeUtils.createTimestampOf host TimeUtils.InvalidDate tz w
       = (inl (JS.RangeError "Invalid time value"), w).
Proof.
  exists (valid_tz host tz). split; [|split; [|reflexivity]].
  - unfold TimeUtils.isValidTimezone, try_catch, ret, throw.
    destruct (valid_tz host tz); reflexivity.
  - intros ms.
    change (TimeUtils.createTimestampOf host (TimeUtils.Instant ms) tz w)
      with (TimeUtils.createTimestamp host ms tz w).
    destruct (valid_tz host tz) eqn:Hv.
    + destruct (TimestampFacts.createTimestamp_valid host ms tz w Hv)
        as (t & w' & E & _).
      rewrite E. split; split; intros H; try reflexivity.
      * exists t, w'. reflexivity.
      * discriminate H.
      * destruct H as (e & H). discriminate H.
    + rewrite (TimestampFacts.createTimestamp_invalid host ms tz w Hv).
      split; split; intros H; try reflexivity.
      * discriminate H.
      * destruct H as (t & w' & H). discriminate H.
      * eexists. reflexivity.
Qed.

(** X9. The default zone is never the empty text: it is the TZ of the
    environment when that is set and not empty, and Asia/Shanghai
    otherwise.  The zone the server configures for its status report is
    always that same label. *)
Theorem X9_default_zone (host : Host) :
  TimeUtils.DEFAULT_TIMEZONE host <> EmptyString
  /\ StatusRoute.timezone host = TimeUtils.DEFAULT_TIMEZONE host
  /\ (forall tz, env_TZ host = Some tz -> tz <> EmptyString ->
                 TimeUtils.DEFAULT_TIMEZONE host = tz)
  /\ (env_TZ host = None \/ env_TZ host = Some EmptyString ->
      TimeUtils.DEFAULT_TIMEZONE host = "Asia/Shanghai").
Proof.
  unfold StatusRoute.timezone, TimeUtils.DEFAULT_TIMEZONE.
  destruct (env_TZ host) as [[|a r]|]; cbn; repeat split;
    try discriminate; try reflexivity.
  all: intros; repeat match goal with
       | H : Some _ = Some _ |- _ => inversion H; clear H; subst
       | H : _ \/ _ |- _ => destruct H
       | H : None = Some _ |- _ => discriminate H
       | H : Some _ = None |- _ => discriminate H
       end; try congruence; try reflexivity.

Qed.

(** ** Further properties of the connection handlers *)

Module ConnectionFacts.

Import TimeUtils Server.

Lemma without_snoc (c : conn) (l : list conn) :
  ~ In c l -> without c (l ++ [c]) = l.
Proof.
  intros H. unfold without. rewrite filter_app. cbn.
  rewrite Nat.eqb_refl. cbn. rewrite app_nil_r.
  apply RegistryFacts.without_absent. exact H.
Qed.

(** The registry once [c] is added. *)
Lemma Set_add_spec (c : conn) (w : World) :
  Set_add c w
  = (inr tt,
     set_clients (if mem c (clients w) then clients w
                  else (clients w ++ [c])%list) w).
Proof.
  unfold Set_add. destruct (mem c (clients w)).
  - rewrite RegistryFacts.set_clients_same. reflexivity.
  - reflexivity.
Qed.

Lemma onMessage_other (host : Host) (c : conn) (text : string) (w : World) :
  text <> "ping" -> onMessage host c text w = (inr tt, w).
Proof.
  intros H. apply String.eqb_neq in H. unfold onMessage. rewrite H.
  destruct ((String.length text <? 100)%nat && negb (startsWith "{" text)
            && negb (startsWith "[" text)); [reflexivity|].
  unfold try_catch. destruct (JSON_parse host text); reflexivity.
Qed.

Section WithHost.

Variable host : Host.

(** [onConnection] when the configured zone is known. *)
Lemma onConnection_valid (c : conn) (w : World) :
  valid_tz host (DEFAULT_TIMEZONE host) = true ->
  exists t w1,
    iso t = toISOString host (clock host (ticks w))
    /\ clients w1 = (if mem c (clients w) then clients w
                     else (clients w ++ [c])%list)
    /\ sockets w1 = sockets w
    /\ trace w1 = trace w
    /\ onConnection host c w
       = (if isWritable (sockets w) c then inr tt else inl (JS.SendError c),
          record (SendCall c (JSON_stringify host (welcomeEnvelope t))
                    (isWritable (sockets w) c)) w1).
Proof.
  intros Hv. unfold onConnection, bind at 1. rewrite Set_add_spec.
  match goal with
  | |- context [bind (createTimestampNow host) _ ?w0] =>
      destruct (TimestampFacts.createTimestampNow_valid host w0 Hv)
        as (t & w1 & E & (Hc & Hs & Ht & _) & Hi & _)
  end.
  exists t, w1. cbn in Hc, Hs, Ht, Hi.
  repeat split; try assumption.
  unfold bind. rewrite E. rewrite LifecycleFacts.ws_send_spec.
  rewrite Hs. reflexivity.
Qed.

(** [onConnection] when the configured zone is not known: it raises
    after the registration. *)
Lemma onConnection_invalid (c : conn) (w : World) :
  valid_tz host (DEFAULT_TIMEZONE host) = false ->
  exists e,
    onConnection host c w
    = (inl e,
       tick (set_clients (if mem c (clients w) then clients w
                          else (clients w ++ [c])%list) w)).
Proof.
  intros Hv. unfold onConnection, bind at 1. rewrite Set_add_spec.
  match goal with
  | |- context [bind (createTimestampNow host) _ ?w0] =>
      destruct (TimestampFacts.createTimestampNow_invalid host w0 Hv)
        as (e & E)
  end.
  exists e. unfold bind. rewrite E. reflexivity.
Qed.

(** In every outcome, what [onConnection] leaves behind. *)
Lemma onConnection_effects (c : conn) (w : World) :
  exists l,
    clients (snd (onConnection host c w))
    = (if mem c (clients w) then clients w else (clients w ++ [c])%list)
    /\ sockets (snd (onConnection host c w)) = sockets w
    /\ added w (snd (onConnection host c w)) = l
    /\ (List.length l <= 1)%nat
    /\ (forall e, In e l -> target e = c).
Proof.
  destruct (valid_tz host (DEFAULT_TIMEZONE host)) eqn:Hv.
  - destruct (onConnection_valid c w Hv) as (t & w1 & _ & Hc & Hs & Ht & E).
    rewrite E. cbn [snd].
    exists [SendCall c (JSON_stringify host (welcomeEnvelope t))
              (isWritable (sockets w) c)].
    split; [exact Hc|]. split; [exact Hs|].
    split; [apply ServerFacts.added_app; cbn; rewrite Ht; reflexivity|].
    split; [cbn; lia|].
    intros e [<-|[]]. reflexivity.
  - destruct (onConnection_invalid c w Hv) as (e & E).
    rewrite E. cbn [snd]. exists [].
    split; [reflexivity|]. split; [reflexivity|].
    split; [apply ServerFacts.added_app; cbn; symmetry; apply app_nil_r|].
    split; [cbn; lia|]. intros x [].
Qed.

End WithHost.

End ConnectionFacts.

(** X10. A frame whose text is not ping changes nothing and makes the
    handler return: no call of [send], no registry change, no clock
    reading, whether the text is short, is JSON, or fails to parse. *)
Theorem X10_other_frames_change_nothing (host : Host) (c : conn)
    (text : string) (w : World) :
  text <> "ping" ->
  Server.onMessage host c text w = (inr tt, w).
Proof.
  apply ConnectionFacts.onMessage_other.
Qed.

Lemma X10_other_frames_change_nothing_witness :
  Server.onMessage Scenario.host Scenario.A "{not json" Scenario.B_fails
  = (inr tt, Scenario.B_fails).
Proof.
  apply (X10_other_frames_change_nothing Scenario.host Scenario.A
           "{not json" Scenario.B_fails).
  discriminate.
Defined.

(** X11. Whether the connection handler returns or raises, the socket is
    in the registry afterwards: it is appended when it was not a member
    and the registry is unchanged when it was, so no other member moves
    or leaves.  The handler makes at most one call of [send], on that
    socket, and leaves the sockets alone. *)
Theorem X11_connection_registered_in_every_outcome (host : Host) (c : conn)
    (w : World) :
  let w' := snd (Server.onConnection host c w) in
  In c (clients w')
  /\ clients w'
     = (if Server.mem c (clients w) then clients w
        else (clients w ++ [c])%list)
  /\ sockets w' = sockets w
  /\ (List.length (added w w') <= 1)%nat
  /\ (forall e, In e (added w w') -> target e = c).
Proof.
  cbn zeta.
  destruct (ConnectionFacts.onConnection_effects host c w)
    as (l & Hc & Hs & Ha & Hl & Ht).
  rewrite Hc, Hs, Ha. repeat split; try assumption.
  destruct (Server.mem c (clients w)) eqn:Hm.
  - apply RegistryFacts.mem_In. exact Hm.
  - apply in_or_app. right. left. reflexivity.
Qed.

(** X12. The connection handler returns exactly when the configured zone
    is known and the socket takes the write.  With a known zone its one
    call of [send] carries the welcome envelope: type welcome, the
    greeting, and the timestamp of the first clock reading of the call.
    With an unknown zone it raises before any call of [send]. *)
Theorem X12_welcome_frame (host : Host) (c : conn) (w : World) :
  let w' := snd (Server.onConnection host c w) in
  (fst (Server.onConnection host c w) = inr tt <->
   valid_tz host (TimeUtils.DEFAULT_TIMEZONE host) = true
   /\ isWritable (sockets w) c = true)
  /\ (valid_tz host (TimeUtils.DEFAULT_TIMEZONE host) = true ->
      exists t,
        JS.get "type" (Server.welcomeEnvelope t) = JS.Str "welcome"
        /\ JS.get "message" (Server.welcomeEnvelope t) = JS.Str "连接成功"
        /\ JS.get "timestamp" (Server.welcomeEnvelope t)
           = JS.Str (toISOString host (clock host (ticks w)))
        /\ added w w'
           = [SendCall c (JSON_stringify host (Server.welcomeEnvelope t))
                (isWritable (sockets w) c)])
  /\ (valid_tz host (TimeUtils.DEFAULT_TIMEZONE host) = false ->
      added w w' = []).
Proof.
  cbn zeta.
  destruct (valid_tz host (TimeUtils.DEFAULT_TIMEZONE host)) eqn:Hv.
  - destruct (ConnectionFacts.onConnection_valid host c w Hv)
      as (t & w1 & Hi & _ & _ & Ht & E).
    rewrite E. cbn [fst snd]. split; [|split].
    + destruct (isWritable (sockets w) c); split.
      * auto.
      * reflexivity.
      * discriminate.
      * intros [_ H]. discriminate H.
    + intros _. exists t. split; [reflexivity|]. split; [reflexivity|].
      split; [cbn; rewrite Hi; reflexivity|].
      apply ServerFacts.added_app. cbn. rewrite Ht. reflexivity.
    + discriminate.
  - destruct (ConnectionFacts.onConnection_invalid host c w Hv) as (e & E).
    rewrite E. cbn [fst snd]. split; [|split].
    + split; [discriminate|]. intros [H _]. discriminate H.
    + discriminate.
    + intros _. apply ServerFacts.added_app. cbn. symmetry. apply app_nil_r.
Qed.

(** X13. A socket that was not registered connects and then delivers any
    number of frames and a close or an error.  When the connection
    handler returned (known zone, welcome written) the registry is
    again what it was before the connection, member for member and in
    the same order.  When the connection handler raised, the handlers
    were never installed, the events change nothing, and the socket
    stays in the registry, at its end. *)
Theorem X13_registry_after_a_connection_life (host : Host) (c : conn)
    (w : World) (frames : list Server.Event) (last : Server.Event) :
  ~ In c (clients w) ->
  forallb (fun ev => negb (isTrigger ev)) frames = true ->
  isTrigger last = true ->
  clients (Server.lifecycle host c (frames ++ [last]) w)
  = if valid_tz host (TimeUtils.DEFAULT_TIMEZONE host)
       && isWritable (sockets w) c
    then clients w
    else (clients w ++ [c])%list.
Proof.
  intros Hout Hframes Hlast. unfold Server.lifecycle.
  pose proof Hout as Hm. apply RegistryFacts.mem_false in Hm.
  destruct (valid_tz host (TimeUtils.DEFAULT_TIMEZONE host)) eqn:Hv.
  - destruct (ConnectionFacts.onConnection_valid host c w Hv)
      as (t & w1 & _ & Hc & _ & _ & E).
    rewrite E, Hm in *. cbn [andb].
    destruct (isWritable (sockets w) c).
    + unfold Server.handleAll. rewrite fold_left_app. cbn [fold_left].
      match goal with
      | |- context [fold_left ?f frames ?w0] =>
          fold (Server.handleAll host c frames w0)
      end.
      rewrite (LifecycleFacts.handle_trigger host c last _ Hlast).
      cbn [snd clients set_clients].
      rewrite (LifecycleFacts.handleAll_messages host c frames _ Hframes).
      cbn [clients record]. rewrite Hc.
      apply ConnectionFacts.without_snoc. exact Hout.
    + cbn [clients record]. exact Hc.
  - destruct (ConnectionFacts.onConnection_invalid host c w Hv) as (e & E).
    rewrite E, Hm. reflexivity.
Qed.

Lemma X13_registry_after_a_connection_life_witness :
  clients
    (Server.lifecycle Scenario.host 7%nat
       ([Server.Message "ping"; Server.Message "hello"] ++ [Server.Error])
       Scenario.B_closed)
  = if valid_tz Scenario.host (TimeUtils.DEFAULT_TIMEZONE Scenario.host)
       && isWritable (sockets Scenario.B_closed) 7%nat
    then clients Scenario.B_closed
    else (clients Scenario.B_closed ++ [7%nat])%list.
Proof.
  apply (X13_registry_after_a_connection_life Scenario.host 7%nat
           Scenario.B_closed [Server.Message "ping"; Server.Message "hello"]
           Server.Error).
  - cbn. intros [E|[E|[E|[]]]]; discriminate E.
  - reflexivity.
  - reflexivity.
Defined.

(** ** Further properties of the submission handler *)

Module SubmissionFacts.

Import TimeUtils Server.

Lemma attempted_NoDup (sk : conn -> Socket) (l : list conn) :
  NoDup l -> NoDup (attempted sk l).
Proof.
  induction l as [|c l IH]; intros H; [constructor|].
  inversion H as [|x r Hnotin Hnd]; subst. cbn.
  destruct (isOpen sk c); [|auto].
  destruct (isWritable sk c).
  - constructor; [|auto].
    intros Hin. apply Hnotin.
    apply (ServerFacts.attempted_open_members sk l c Hin).
  - constructor; [intros []|constructor].
Qed.

Lemma targets_of_calls (sk : conn -> Socket) (frame : string)
    (l : list conn) :
  map target (calls sk frame l) = attempted sk l.
Proof.
  unfold calls. rewrite map_map. cbn. apply map_id.
Qed.

Lemma without_NoDup (c : conn) (l : list conn) :
  NoDup l -> NoDup (without c l).
Proof. intros H. unfold without. apply NoDup_filter. exact H. Qed.

Lemma snoc_NoDup (c : conn) (l : list conn) :
  NoDup l -> ~ In c l -> NoDup (l ++ [c]).
Proof.
  intros Hl Hc. apply NoDup_app.
  - exact Hl.
  - constructor; [intros []|constructor].
  - intros x Hx [<-|[]]. exact (Hc Hx).
Qed.

Lemma sendmsg_outcome (host : Host) (reqBody : JS.value) (w : World) :
  exists resp w',
    sendmsg host reqBody w = (inr resp, w')
    /\ clients w' = clients w
    /\ sockets w' = sockets w
    /\ Outcome host reqBody w resp (added w w').
Proof.
  destruct (JS.truthy reqBody) eqn:Hb.
  - destruct (valid_tz host (DEFAULT_TIMEZONE host)) eqn:Hv.
    + destruct (ServerFacts.sendmsg_truthy host reqBody w Hb Hv)
        as (t & resp & w' & E & _ & Hc & Hs & Ht & Hok & Hko).
      exists resp, w'. split; [exact E|]. split; [exact Hc|].
      split; [exact Hs|].
      apply ServerFacts.added_app in Ht. rewrite Ht.
      destruct (sends_return (sockets w) (clients w)) eqn:Hsr.
      * destruct (Hok eq_refl) as (t2 & ->). apply Sent; assumption.
      * rewrite (Hko eq_refl). unfold calls.
        apply Failed; auto.
    + exists serverError, (tick w).
      split; [apply ServerFacts.sendmsg_truthy_invalid; assumption|].
      split; [reflexivity|]. split; [reflexivity|].
      rewrite (ServerFacts.added_app w (tick w) [])
        by (cbn; symmetry; apply app_nil_r).
      apply (Failed host reqBody w EmptyString []); auto.
  - exists badRequest, w.
    split; [apply ServerFacts.sendmsg_falsy; assumption|].
    split; [reflexivity|]. split; [reflexivity|].
    rewrite (ServerFacts.added_app w w []) by (symmetry; apply app_nil_r).
    apply Rejected. assumption.
Qed.

Lemma outcome_targets (host : Host) (reqBody : JS.value) (w : World)
    (resp : Response) (l : list Effect) :
  Outcome host reqBody w resp l ->
  map target l = [] \/ map target l = attempted (sockets w) (clients w).
Proof.
  intros H. destruct H as [Hb | frame l Hb Hwhy Hl | frame t Hb Hv Hs].
  - left. reflexivity.
  - rewrite map_map. cbn. rewrite map_id. destruct Hl as [-> | ->]; auto.
  - right. apply targets_of_calls.
Qed.

End SubmissionFacts.

(** X14. A registry without duplicates stays without duplicates through
    every handler: a connection, a close, an error or a frame of any
    socket, and a submission.  So its size is the number of registered
    sockets. *)
Theorem X14_registry_keeps_no_duplicates (host : Host) (c : conn)
    (ev : Server.Event) (reqBody : JS.value) (w : World) :
  NoDup (clients w) ->
  NoDup (clients (snd (Server.onConnection host c w)))
  /\ NoDup (clients (snd (Server.handle host c ev w)))
  /\ NoDup (clients (snd (Server.sendmsg host reqBody w))).
Proof.
  intros H. split; [|split].
  - destruct (ConnectionFacts.onConnection_effects host c w) as (l & Hc & _).
    rewrite Hc. destruct (Server.mem c (clients w)) eqn:Hm; [exact H|].
    apply SubmissionFacts.snoc_NoDup; [exact H|].
    apply RegistryFacts.mem_false. exact Hm.
  - destruct (isTrigger ev) eqn:Ht.
    + rewrite (LifecycleFacts.handle_trigger host c ev w Ht). cbn.
      apply SubmissionFacts.without_NoDup. exact H.
    + rewrite (LifecycleFacts.handle_message host c ev w Ht). exact H.
  - destruct (SubmissionFacts.sendmsg_outcome host reqBody w)
      as (resp & w' & E & Hc & _).
    rewrite E. cbn [snd]. rewrite Hc. exact H.
Qed.

Lemma X14_registry_keeps_no_duplicates_witness :
  NoDup (clients (snd (Server.onConnection Scenario.host Scenario.B
                         Scenario.B_closed)))
  /\ NoDup (clients (snd (Server.handle Scenario.host Scenario.B
                            Server.Close Scenario.B_closed)))
  /\ NoDup (clients (snd (Server.sendmsg Scenario.host Scenario.hi
                            Scenario.B_closed))).
Proof.
  apply (X14_registry_keeps_no_duplicates Scenario.host Scenario.B
           Server.Close Scenario.hi Scenario.B_closed).
  cbn. repeat constructor; cbn; intros H;
    repeat (destruct H as [H|H]; [discriminate H|]); exact H.
Defined.

(** X15. With a registry without duplicates, one submission calls [send]
    at most once on any socket. *)
Theorem X15_no_socket_is_sent_twice (host : Host) (reqBody : JS.value)
    (w : World) :
  NoDup (clients w) ->
  NoDup (map target (added w (snd (Server.sendmsg host reqBody w)))).
Proof.
  intros H.
  destruct (SubmissionFacts.sendmsg_outcome host reqBody w)
    as (resp & w' & E & _ & _ & Ho).
  rewrite E. cbn [snd].
  destruct (SubmissionFacts.outcome_targets host reqBody w resp _ Ho)
    as [-> | ->].
  - constructor.
  - apply SubmissionFacts.attempted_NoDup. exact H.
Qed.

Lemma X15_no_socket_is_sent_twice_witness :
  NoDup (map target
           (added Scenario.B_fails
              (snd (Server.sendmsg Scenario.host Scenario.hi
                      Scenario.B_fails)))).
Proof.
  apply (X15_no_socket_is_sent_twice Scenario.host Scenario.hi
           Scenario.B_fails).
  cbn. repeat constructor; cbn; intros H;
    repeat (destruct H as [H|H]; [discriminate H|]); exact H.
Defined.

(** X16. Once a socket has closed or failed, whatever it delivers
    afterwards, a submission handled then makes no call of [send] on
    it. *)
Theorem X16_no_broadcast_after_close (host : Host) (c : conn) (w : World)
    (first : Server.Event) (later : list Server.Event)
    (reqBody : JS.value) :
  isTrigger first = true ->
  let w1 := Server.handleAll host c (first :: later) w in
  ~ In c (map target (added w1 (snd (Server.sendmsg host reqBody w1)))).
Proof.
  intros Hfirst. cbn zeta. intros He.
  assert (Hout : ~ In c (clients
                           (Server.handleAll host c (first :: later) w))).
  { cbn [Server.handleAll fold_left].
    fold (Server.handleAll host c later (snd (Server.handle host c first w))).
    rewrite (LifecycleFacts.handle_trigger host c first w Hfirst). cbn [snd].
    rewrite LifecycleFacts.handleAll_absent;
      cbn; apply RegistryFacts.without_not_In. }
  destruct (SubmissionFacts.sendmsg_outcome host reqBody
              (Server.handleAll host c (first :: later) w))
    as (resp & w' & E & _ & _ & Ho).
  rewrite E in He. cbn [snd] in He.
  destruct (SubmissionFacts.outcome_targets host reqBody _ resp _ Ho)
    as [Ht | Ht]; rewrite Ht in He.
  - destruct He.
  - apply Hout. apply (ServerFacts.attempted_open_members _ _ _ He).
Qed.

Lemma X16_no_broadcast_after_close_witness :
  ~ In Scenario.A
      (map target
         (added
            (Server.handleAll Scenario.host Scenario.A
               [Server.Error; Server.Close] Scenario.B_closed)
            (snd (Server.sendmsg Scenario.host Scenario.hi
                    (Server.handleAll Scenario.host Scenario.A
                       [Server.Error; Server.Close] Scenario.B_closed))))).
Proof.
  apply (X16_no_broadcast_after_close Scenario.host Scenario.A
           Scenario.B_closed Server.Error [Server.Close] Scenario.hi).
  reflexivity.
Defined.

(** X17. The submission handler always answers and never changes the
    registry or the sockets.  Its answer is 400 exactly when the body is
    not truthy; 200 exactly when the body is truthy, the configured
    zone is known and no OPEN member raises on [send]; 500 exactly when
    the body is truthy and the zone is unknown or an OPEN member
    raises. *)
Theorem X17_submission_status (host : Host) (reqBody : JS.value)
    (w : World) :
  exists resp w',
    Server.sendmsg host reqBody w = (inr resp, w')
    /\ clients w' = clients w
    /\ sockets w' = sockets w
    /\ (Server.status resp = 400 <-> JS.truthy reqBody = false)
    /\ (Server.status resp = 200 <->
        JS.truthy reqBody = true
        /\ valid_tz host (TimeUtils.DEFAULT_TIMEZONE host) = true
        /\ sends_return (sockets w) (clients w) = true)
    /\ (Server.status resp = 500 <->
        JS.truthy reqBody = true
        /\ (valid_tz host (TimeUtils.DEFAULT_TIMEZONE host) = false
            \/ sends_return (sockets w) (clients w) = false)).
Proof.
  destruct (SubmissionFacts.sendmsg_outcome host reqBody w)
    as (resp & w' & E & Hc & Hs & Ho).
  exists resp, w'. split; [exact E|]. split; [exact Hc|]. split; [exact Hs|].
  destruct Ho as [Hb | frame l Hb Hwhy Hl | frame t Hb Hv Hsr]; cbn.
  - rewrite Hb. split; [|split]; split; intros H;
      try reflexivity; try discriminate H.
    + destruct H as (H & _). discriminate H.
    + destruct H as (H & _). discriminate H.
  - rewrite Hb. split; [|split]; split; intros H;
      try reflexivity; try discriminate H.
    + destruct H as (_ & H1 & H2). destruct Hwhy; congruence.
    + split; [reflexivity | exact Hwhy].
  - rewrite Hb, Hv, Hsr. split; [|split]; split; intros H;
      try reflexivity; try discriminate H.
    + auto.
    + destruct H as (_ & [H | H]); discriminate H.
Qed.

(** ** The status report *)

Module StatusFacts.

Import TimeUtils Server StatusRoute.

Section WithHost.

Variable host : Host.

(** Every field of the snapshot [createTimestamp] returns on a known
    zone, the zone record apart. *)
Lemma createTimestamp_fields (date : Z) (tz : string) (w : World) :
  valid_tz host tz = true ->
  exists i w',
    createTimestamp host date tz w
    = (inr {| iso := toISOString host date;
              local := render host "zh-CN" NumericShortZone tz date;
              compact :=
                JS.replaceFirst "T" " "
                  (render host "sv-SE" TimeZoneOnly tz date);
              unix := JS.floorDiv date 1000;
              milliseconds := date;
              tzinfo := i |},
       w')
    /\ only_clock_read w w'.
Proof.
  intros Hv.
  destruct (TimestampFacts.getTimezoneInfo_returns host tz w)
    as (i & w' & Ei & Hf & _).
  exists i, w'. split; [|exact Hf].
  unfold createTimestamp, bind, formatToLocal, formatCompact,
    toLocaleString, ret.
  rewrite Hv. unfold bind, ret. rewrite Ei. reflexivity.
Qed.

Variable startTime : Z.
Variable PORT : JS.value.
Variable WS_PORT : JS.value.
Variable memoryUsage : JS.value.
Variable platform : JS.value.
Variable nodeVersion : JS.value.
Variable pid : JS.value.

Lemma apiStatus_valid (w : World) :
  valid_tz host (DEFAULT_TIMEZONE host) = true ->
  exists startTimestamp currentTimestamp timezoneInfo w',
    apiStatus host startTime PORT WS_PORT memoryUsage platform nodeVersion
      pid w
    = (inr {| status := 200;
              body :=
                statusBody PORT WS_PORT memoryUsage platform nodeVersion pid
                  (calculateUptime startTime (clock host (ticks w)))
                  startTimestamp currentTimestamp timezoneInfo
                  (Z.of_nat (List.length (clients w))) |},
       w')
    /\ only_clock_read w w'
    /\ iso startTimestamp = toISOString host startTime
    /\ unix startTimestamp = JS.floorDiv startTime 1000
    /\ iso currentTimestamp = toISOString host (clock host (ticks w))
    /\ unix currentTimestamp = JS.floorDiv (clock host (ticks w)) 1000.
Proof.
  intros Hv.
  destruct (createTimestamp_fields (clock host (ticks w))
              (DEFAULT_TIMEZONE host) (tick w) Hv) as (i1 & w1 & E1 & F1).
  destruct (createTimestamp_fields startTime
              (DEFAULT_TIMEZONE host) w1 Hv) as (i2 & w2 & E2 & F2).
  destruct (TimestampFacts.getTimezoneInfo_returns host
              (StatusRoute.timezone host) w2) as (i3 & w3 & E3 & F3 & _).
  assert (F : only_clock_read w w3).
  { eapply TimestampFacts.only_clock_read_trans;
      [apply TimestampFacts.only_clock_read_tick|].
    eapply TimestampFacts.only_clock_read_trans; [exact F1|].
    eapply TimestampFacts.only_clock_read_trans; [exact F2|exact F3]. }
  eexists _, _, i3, w3. split.
  - unfold apiStatus, bind at 1, getCurrentTime, newDate.
    unfold bind at 1. rewrite E1.
    unfold bind at 1. rewrite E2.
    unfold bind at 1. rewrite E3.
    unfold bind, Set_size, ret.
    destruct F as (Hc & _). rewrite Hc. reflexivity.
  - split; [exact F|]. cbn. auto.
Qed.

Lemma apiStatus_invalid (w : World) :
  valid_tz host (DEFAULT_TIMEZONE host) = false ->
  apiStatus host startTime PORT WS_PORT memoryUsage platform nodeVersion
    pid w
  = (inl (JS.RangeError
            ("Invalid time zone specified: " ++ DEFAULT_TIMEZONE host)),
     tick w).
Proof.
  intros Hv. unfold apiStatus, bind at 1, getCurrentTime, newDate.
  unfold bind at 1.
  rewrite (TimestampFacts.createTimestamp_invalid host _ _ _ Hv).
  reflexivity.
Qed.

End WithHost.

End StatusFacts.

(** X18. With a known configured zone the status handler answers 200 and
    touches nothing but the clock: no call of [send], no registry
    change.  Its report says running, gives as connected_clients the
    size of the registry, echoes the two ports, and its uptime is the
    one [calculateUptime] finds from the start time to the first clock
    reading of the call (total_milliseconds is their difference as a
    double, the exact difference up to 2^53 ms), which is also the
    instant of the current timestamp. *)
Theorem X18_status_report (host : Host) (startTime : Z)
    (PORT WS_PORT memoryUsage platform nodeVersion pid : JS.value)
    (w : World) :
  valid_tz host (TimeUtils.DEFAULT_TIMEZONE host) = true ->
  exists resp w',
    StatusRoute.apiStatus host startTime PORT WS_PORT memoryUsage platform
      nodeVersion pid w = (inr resp, w')
    /\ only_clock_read w w'
    /\ Server.status resp = 200
    /\ JS.get "status" (Server.body resp) = JS.Str "running"
    /\ JS.get "connected_clients"
         (JS.get "websocket" (JS.get "services" (Server.body resp)))
       = JS.Number (Z.of_nat (List.length (clients w)))
    /\ JS.get "port"
         (JS.get "websocket" (JS.get "services" (Server.body resp)))
       = WS_PORT
    /\ JS.get "port" (JS.get "http" (JS.get "services" (Server.body resp)))
       = PORT
    /\ JS.get "uptime" (Server.body resp)
       = StatusRoute.uptimeObject
           (TimeUtils.calculateUptime startTime (clock host (ticks w)))
        /\ JS.get "total_milliseconds" (JS.get "uptime" (Server.body resp))
       = JS.Number (JS.toDouble (clock host (ticks w) - startTime))
    /\ (Z.abs (clock host (ticks w) - startTime) <= 9007199254740992 ->
        JS.get "total_milliseconds" (JS.get "uptime" (Server.body resp))
        = JS.Number (clock host (ticks w) - startTime))
    /\ JS.get "iso" (JS.get "current" (JS.get "time" (Server.body resp)))
       = JS.Str (toISOString host (clock host (ticks w)))
    /\ JS.get "iso" (JS.get "start" (JS.get "time" (Server.body resp)))
       = JS.Str (toISOString host startTime).
Proof.
  intros Hv.
  destruct (StatusFacts.apiStatus_valid host startTime PORT WS_PORT
              memoryUsage platform nodeVersion pid w Hv)
    as (ts & tc & i & w' & E & F & Hsi & _ & Hci & _).
    eexists _, w'. split; [exact E|]. split; [exact F|].
  cbn. rewrite Hsi, Hci. repeat split.
  intros Hb. rewrite DoubleFacts.toDouble_exact by exact Hb. reflexivity.
Qed.

Lemma X18_status_report_witness :
  exists resp w',
    StatusRoute.apiStatus Scenario.host 1699992734568 (JS.Number 3000)
      (JS.Number 9999) JS.Null (JS.Str "linux") (JS.Str "v16") (JS.Number 1)
      Scenario.B_closed = (inr resp, w')
    /\ only_clock_read Scenario.B_closed w'
    /\ Server.status resp = 200
    /\ JS.get "status" (Server.body resp) = JS.Str "running"
    /\ JS.get "connected_clients"
         (JS.get "websocket" (JS.get "services" (Server.body resp)))
       = JS.Number (Z.of_nat (List.length (clients Scenario.B_closed)))
    /\ JS.get "port"
         (JS.get "websocket" (JS.get "services" (Server.body resp)))
       = JS.Number 9999
    /\ JS.get "port" (JS.get "http" (JS.get "services" (Server.body resp)))
       = JS.Number 3000
    /\ JS.get "uptime" (Server.body resp)
       = StatusRoute.uptimeObject
           (TimeUtils.calculateUptime 1699992734568
              (clock Scenario.host (ticks Scenario.B_closed)))
        /\ JS.get "total_milliseconds" (JS.get "uptime" (Server.body resp))
       = JS.Number (JS.toDouble
                      (clock Scenario.host (ticks Scenario.B_closed)
                       - 1699992734568))
    /\ (Z.abs (clock Scenario.host (ticks Scenario.B_closed)
               - 1699992734568) <= 9007199254740992 ->
        JS.get "total_milliseconds" (JS.get "uptime" (Server.body resp))
        = JS.Number (clock Scenario.host (ticks Scenario.B_closed)
                     - 1699992734568))
    /\ JS.get "iso" (JS.get "current" (JS.get "time" (Server.body resp)))
       = JS.Str (toISOString Scenario.host
                   (clock Scenario.host (ticks Scenario.B_closed)))
    /\ JS.get "iso" (JS.get "start" (JS.get "time" (Server.body resp)))
       = JS.Str (toISOString Scenario.host 1699992734568).
Proof.
  apply (X18_status_report Scenario.host 1699992734568 (JS.Number 3000)
           (JS.Number 9999) JS.Null (JS.Str "linux") (JS.Str "v16")
           (JS.Number 1) Scenario.B_closed).
  reflexivity.
Defined.

(** X19. With an unknown configured zone the status handler raises the
    RangeError of its first rendering, after one clock reading and
    before anything else; nothing in the handler catches it, whereas the
    submission handler turns the same failure into its 500 answer. *)
Theorem X19_status_raises_on_unknown_zone (host : Host) (startTime : Z)
    (PORT WS_PORT memoryUsage platform nodeVersion pid : JS.value)
    (reqBody : JS.value) (w : World) :
  valid_tz host (TimeUtils.DEFAULT_TIMEZONE host) = false ->
  StatusRoute.apiStatus host startTime PORT WS_PORT memoryUsage platform
    nodeVersion pid w
  = (inl (JS.RangeError
            ("Invalid time zone specified: "
             ++ TimeUtils.DEFAULT_TIMEZONE host)),
     tick w)
  /\ (JS.truthy reqBody = true ->
      Server.sendmsg host reqBody w = (inr Server.serverError, tick w)).
Proof.
  intros Hv. split.
  - apply StatusFacts.apiStatus_invalid. exact Hv.
  - intros Hb. apply ServerFacts.sendmsg_truthy_invalid; assumption.
Qed.

Lemma X19_status_raises_on_unknown_zone_witness :
  StatusRoute.apiStatus Misconfigured.host 1699992734568 (JS.Number 3000)
    (JS.Number 9999) JS.Null (JS.Str "linux") (JS.Str "v16") (JS.Number 1)
    Scenario.B_closed
  = (inl (JS.RangeError
            ("Invalid time zone specified: "
             ++ TimeUtils.DEFAULT_TIMEZONE Misconfigured.host)),
     tick Scenario.B_closed)
  /\ (JS.truthy Scenario.hi = true ->
      Server.sendmsg Misconfigured.host Scenario.hi Scenario.B_closed
      = (inr Server.serverError, tick Scenario.B_closed)).
Proof.
  apply (X19_status_raises_on_unknown_zone Misconfigured.host 1699992734568
           (JS.Number 3000) (JS.Number 9999) JS.Null (JS.Str "linux")
           (JS.Str "v16") (JS.Number 1) Scenario.hi Scenario.B_closed).
  reflexivity.
Defined.

(** ** Runs of frames *)

Module FrameFacts.

Import Server.

Lemma handle_frame (host : Host) (c : conn) (ev : Event) (w : World) :
  isTrigger ev = false ->
  snd (handle host c ev w)
  = if isPing ev
    then record (SendCall c "pong" (isWritable (sockets w) c)) w
    else w.
Proof.
  destruct ev as [| |text]; cbn [isTrigger]; intros H; try discriminate H.
  cbn [handle isPing].
  destruct (String.eqb text "ping") eqn:E.
  - apply String.eqb_eq in E. subst text.
    change (onMessage host c "ping" w) with (ws_send c "pong" w).
    rewrite LifecycleFacts.ws_send_spec. reflexivity.
  - apply String.eqb_neq in E.
    rewrite (ConnectionFacts.onMessage_other host c text w E). reflexivity.
Qed.

Lemma handleAll_frames (host : Host) (c : conn) (frames : list Event)
    (w : World) :
  forallb (fun ev => negb (isTrigger ev)) frames = true ->
  let w' := handleAll host c frames w in
  clients w' = clients w
  /\ sockets w' = sockets w
  /\ ticks w' = ticks w
  /\ trace w'
     = (trace w
        ++ map (fun _ => SendCall c "pong" (isWritable (sockets w) c))
             (filter isPing frames))%list.
Proof.
  revert w. induction frames as [|ev frames IH]; intros w H; cbn zeta.
  - cbn. rewrite app_nil_r. auto.
  - cbn in H. apply andb_true_iff in H. destruct H as [Hev Hrest].
    apply negb_true_iff in Hev.
    cbn [handleAll fold_left].
    fold (handleAll host c frames (snd (handle host c ev w))).
    rewrite (handle_frame host c ev w Hev).
    destruct (isPing ev) eqn:Hp.
    + destruct (IH (record (SendCall c "pong" (isWritable (sockets w) c)) w)
                  Hrest) as (Hc & Hs & Ht & Htr).
      rewrite Hc, Hs, Ht, Htr. cbn [filter]. rewrite Hp. cbn.
      rewrite <- app_assoc. auto.
    + destruct (IH w Hrest) as (Hc & Hs & Ht & Htr).
      rewrite Hc, Hs, Ht, Htr. cbn [filter]. rewrite Hp. auto.
Qed.

End FrameFacts.

(** X20. Over any run of frames of one socket, the handler calls [send]
    once for every frame that is ping and for no other frame, always on
    that socket and with pong; the registry, the sockets and the clock
    are left alone.  So the pongs are as many as the pings, in the same
    order. *)
Theorem X20_as_many_pongs_as_pings (host : Host) (c : conn)
    (frames : list Server.Event) (w : World) :
  forallb (fun ev => negb (isTrigger ev)) frames = true ->
  let w' := Server.handleAll host c frames w in
  clients w' = clients w
  /\ sockets w' = sockets w
  /\ ticks w' = ticks w
  /\ added w w'
     = map (fun _ => SendCall c "pong" (isWritable (sockets w) c))
         (filter isPing frames)
  /\ List.length (added w w') = List.length (filter isPing frames).
Proof.
  intros H. cbn zeta.
  destruct (FrameFacts.handleAll_frames host c frames w H)
    as (Hc & Hs & Ht & Htr).
  apply ServerFacts.added_app in Htr.
  rewrite Htr. repeat split; try assumption. apply length_map.
Qed.

Lemma X20_as_many_pongs_as_pings_witness :
  let frames := [Server.Message "ping"; Server.Message "hello";
                 Server.Message "[1,2]"; Server.Message "ping"] in
  let w' := Server.handleAll Scenario.host Scenario.A frames
              Scenario.B_closed in
  clients w' = clients Scenario.B_closed
  /\ sockets w' = sockets Scenario.B_closed
  /\ ticks w' = ticks Scenario.B_closed
  /\ added Scenario.B_closed w'
     = map (fun _ => SendCall Scenario.A "pong"
                       (isWritable (sockets Scenario.B_closed) Scenario.A))
         (filter isPing frames)
  /\ List.length (added Scenario.B_closed w')
     = List.length (filter isPing frames).
Proof.
  apply (X20_as_many_pongs_as_pings Scenario.host Scenario.A
           [Server.Message "ping"; Server.Message "hello";
            Server.Message "[1,2]"; Server.Message "ping"]
           Scenario.B_closed).
  reflexivity.
Defined.

(** ** Deregistration *)

Module DeregistrationFacts.

Import Server.


(** The registry after a handler is the registry after the deletes the
    handler makes. *)
Lemma registry_after_handler (host : Host) (c : conn) (ev : Event)
    (w : World) :
  clients (snd (handle host c ev w))
  = afterDeletes (deleteCalls c ev w) (clients w).
Proof.
  destruct ev as [| |text]; try reflexivity.
  cbn [handle deleteCalls afterDeletes fold_left].
  apply LifecycleFacts.onMessage_clients.
Qed.


End DeregistrationFacts.



